(** * To-do Automater: scheduling and dispatch core

    A shallow embedding of [main.py] and of the modules it drives
    ([modules/email_sender.py], [modules/stock_fetcher.py],
    [modules/calendar_invite.py], [modules/gemini_parser.py]), and the
    properties of the scheduler and dispatcher proved over it.

    Python values that come out of [json.loads] are values of [json]; a
    [dict] is a [gmap string json].  A function that prints, calls a
    service or raises is a computation in [M]: it yields the events it
    produced, in order, and either a result or the exception that left it.
    Third-party libraries and network services are taken from an
    environment [Env]. *)

From Stdlib Require Import ZArith String Ascii List PrimFloat Lia.
From stdpp Require Import base gmap strings list.

Set Warnings "-register-all".
Local Open Scope string_scope.

(** ** Python exceptions and results *)

(** The exception classes that occur.  Every one of them is a subclass of
    [Exception]; [JSONDecodeError] is the only class that
    [except json.JSONDecodeError] catches. *)
Inductive exn : Type :=
  | TypeError
  | AttributeError
  | ValueError
  | JSONDecodeError
  | ServiceError (origin : string).

Inductive outcome (A : Type) : Type :=
  | Returned (a : A)
  | Raised (e : exn).
Arguments Returned {A} a.
Arguments Raised {A} e.

Definition is_JSONDecodeError (e : exn) : bool :=
  match e with JSONDecodeError => true | _ => false end.

(** ** JSON values, as [json.loads] builds them *)

Inductive json : Type :=
  | JNull
  | JBool (b : bool)
  | JInt (z : Z)
  | JFloat (f : float)
  | JStr (s : string)
  | JArr (l : list json)
  | JObj (m : gmap string json).

(** [bool(v)]: the truth value Python gives to [v] in [if v:]. *)
Definition truthy (v : json) : bool :=
  match v with
  | JNull => false
  | JBool b => b
  | JInt z => negb (z =? 0)%Z
  | JFloat f => negb (PrimFloat.eqb f 0%float)
  | JStr s => negb (String.eqb s EmptyString)
  | JArr l => match l with [] => false | _ => true end
  | JObj m => negb (bool_decide (m = ∅))
  end.

(** [isinstance(v, str)] *)
Definition is_str (v : json) : bool :=
  match v with JStr _ => true | _ => false end.

(** [v == s] for a string literal [s]. *)
Definition eq_str (v : json) (s : string) : bool :=
  match v with JStr s' => String.eqb s' s | _ => false end.

(** ** Characters and strings (ASCII) *)

Definition in_range (lo hi c : ascii) : bool :=
  ((nat_of_ascii lo <=? nat_of_ascii c) && (nat_of_ascii c <=? nat_of_ascii hi))%nat.

Definition is_digit (c : ascii) : bool := in_range "0" "9" c.

(** [str.isspace] on one ASCII character: tab, line feed, vertical tab,
    form feed, carriage return, the four separators 28..31 and space.  The
    blanks of Unicode beyond ASCII (U+00A0, U+0085, U+2003, ...) are not
    covered: what is stated of [strip] and of the blanks of a format is
    stated of ASCII text. *)
Definition is_space (c : ascii) : bool :=
  let n := nat_of_ascii c in
  (((9 <=? n) && (n <=? 13)) || ((28 <=? n) && (n <=? 32)))%nat.

Definition lower_char (c : ascii) : ascii :=
  if in_range "A" "Z" c then ascii_of_nat (nat_of_ascii c + 32) else c.

(** [s.lower()] on ASCII text: the letters A to Z are lowered.  [str.lower]
    also lowers letters beyond ASCII (U+212A, the Kelvin sign, to "k");
    what is stated of [lower] is stated of ASCII text. *)
Fixpoint lower (s : string) : string :=
  match s with
  | EmptyString => EmptyString
  | String c s' => String (lower_char c) (lower s')
  end.

(** [c in s] for a one-character string [c]. *)
Fixpoint char_in (c : ascii) (s : string) : bool :=
  match s with
  | EmptyString => false
  | String c' s' => Ascii.eqb c' c || char_in c s'
  end.

Fixpoint lstrip (s : string) : string :=
  match s with
  | EmptyString => EmptyString
  | String c s' => if is_space c then lstrip s' else s
  end.

Fixpoint rstrip (s : string) : string :=
  match s with
  | EmptyString => EmptyString
  | String c s' =>
      match rstrip s' with
      | EmptyString => if is_space c then EmptyString else String c EmptyString
      | r => String c r
      end
  end.

(** [s.strip()] *)
Definition strip (s : string) : string := rstrip (lstrip s).

(** [s.startswith(p)] *)
Definition startswith (p s : string) : bool := String.prefix p s.

(** [s[n:]] *)
Fixpoint drop_str (n : nat) (s : string) : string :=
  match n, s with
  | O, _ => s
  | S n', String _ s' => drop_str n' s'
  | S _, EmptyString => EmptyString
  end.

(** [s.endswith(p)] *)
Definition endswith (p s : string) : bool :=
  String.eqb (drop_str (String.length s - String.length p) s) p
  && (String.length p <=? String.length s)%nat.

(** [s[:-n]] for [n > 0] *)
Definition drop_last (n : nat) (s : string) : string :=
  String.substring 0 (String.length s - n) s.

(** ** Dates and times ([datetime]) *)

(** The fields are Python integers.  [utcoffset] is [None] for a naive
    value and the offset from UTC, in microseconds, for an aware one. *)
Record datetime : Type := mk_datetime {
  year : Z;
  month : Z;
  day : Z;
  hour : Z;
  minute : Z;
  second : Z;
  microsecond : Z;
  utcoffset : option Z
}.

Record date : Type := mk_date {
  date_year : Z;
  date_month : Z;
  date_day : Z
}.

(** [dt.date()] *)
Definition date_of (dt : datetime) : date :=
  mk_date (year dt) (month dt) (day dt).

Local Open Scope Z_scope.

Definition is_leap (y : Z) : bool :=
  (y mod 4 =? 0) && (negb (y mod 100 =? 0) || (y mod 400 =? 0)).

Definition days_in_month (y m : Z) : Z :=
  match m with
  | 2 => if is_leap y then 29 else 28
  | 4 | 6 | 9 | 11 => 30
  | _ => 31
  end.

Definition valid_date (y m d : Z) : bool :=
  (1 <=? y) && (y <=? 9999) && (1 <=? m) && (m <=? 12)
  && (1 <=? d) && (d <=? days_in_month y m).

(** The invariant of a [datetime] object. *)
Definition valid_datetime (dt : datetime) : bool :=
  valid_date (year dt) (month dt) (day dt)
  && (0 <=? hour dt) && (hour dt <? 24)
  && (0 <=? minute dt) && (minute dt <? 60)
  && (0 <=? second dt) && (second dt <? 60)
  && (0 <=? microsecond dt) && (microsecond dt <? 1000000).

Definition days_before_year (y : Z) : Z :=
  let p := y - 1 in p * 365 + p / 4 - p / 100 + p / 400.

Definition days_before_month (y m : Z) : Z :=
  match m with
  | 1 => 0 | 2 => 31 | 3 => 59 | 4 => 90 | 5 => 120 | 6 => 151
  | 7 => 181 | 8 => 212 | 9 => 243 | 10 => 273 | 11 => 304 | 12 => 334
  | _ => -1
  end + (if (2 <? m) && is_leap y then 1 else 0).

(** [dt.toordinal()] *)
Definition toordinal (dt : datetime) : Z :=
  days_before_year (year dt) + days_before_month (year dt) (month dt) + day dt.

(** Microseconds from the start of year 1 to [dt], read as local time. *)
Definition to_micro (dt : datetime) : Z :=
  (toordinal dt * 86400 + hour dt * 3600 + minute dt * 60 + second dt)
  * 1000000 + microsecond dt.

(** [a - b], as a number of microseconds.  Two naive values, or two aware
    ones, subtract; a naive and an aware one raise [TypeError]. *)
Definition datetime_sub (a b : datetime) : outcome Z :=
  match utcoffset a, utcoffset b with
  | None, None => Returned (to_micro a - to_micro b)
  | Some oa, Some ob => Returned (to_micro a - to_micro b + ob - oa)
  | _, _ => Raised TypeError
  end.

(** Decimal digits. *)
Definition digit_val (c : ascii) : Z := Z.of_nat (nat_of_ascii c) - 48.

Definition digit_char (n : Z) : ascii := ascii_of_nat (Z.to_nat (48 + n)).

(** [str(d)], that is ["%04d-%02d-%02d" % (year, month, day)], for a year
    from 0 to 9999 and a month and a day from 0 to 99. *)
Definition fmt2 (n : Z) : string :=
  String (digit_char (n / 10 mod 10)) (String (digit_char (n mod 10)) EmptyString).

Definition fmt4 (n : Z) : string :=
  String (digit_char (n / 1000 mod 10))
    (String (digit_char (n / 100 mod 10)) (fmt2 n)).

Definition str_date (d : date) : string :=
  (fmt4 (date_year d) ++ "-" ++ fmt2 (date_month d) ++ "-" ++ fmt2 (date_day d))%string.

(** ** [datetime.strptime(s, "%Y-%m-%d %H:%M")]

    [strptime] turns its format into a regular expression and matches it
    at the start of the data string with a backtracking matcher; a blank
    in the format becomes [\s+] and each directive a named group:
<<
      %Y  \d\d\d\d
      %m  1[0-2]|0[1-9]|[1-9]
      %d  3[0-1]|[1-2]\d|0[1-9]|[1-9]| [1-9]
      %H  2[0-3]|[0-1]\d|\d
      %M  [0-5]\d|\d
>>
    A matcher takes the continuation to run on the rest of the string;
    [p <|> q] tries [q] when [p], followed by the continuation, fails. *)
Module Strptime.

Definition orelse {R : Type} (p q : option R) : option R :=
  match p with Some r => Some r | None => q end.

Infix "<|>" := orelse (at level 50, left associativity).

Section Matchers.
Context {R : Type}.

(** One character of a class, passed on as a digit value. *)
Definition one (p : ascii → bool) (k : Z → string → option R)
    (s : string) : option R :=
  match s with
  | String a s' => if p a then k (digit_val a) s' else None
  | EmptyString => None
  end.

(** Two characters of two classes, passed on as a two-digit value. *)
Definition two (p1 p2 : ascii → bool) (k : Z → string → option R)
    (s : string) : option R :=
  one p1 (fun a => one p2 (fun b => k (10 * a + b))) s.

(** A literal character of the format. *)
Definition lit (c : ascii) (k : string → option R) (s : string) : option R :=
  match s with
  | String a s' => if Ascii.eqb a c then k s' else None
  | EmptyString => None
  end.

(** [\s+]: as many blanks as possible first, then fewer. *)
Fixpoint blanks (k : string → option R) (s : string) : option R :=
  match s with
  | String a s' => if is_space a then blanks k s' <|> k s' else None
  | EmptyString => None
  end.

Definition chr (c : ascii) : ascii → bool := fun a => Ascii.eqb a c.

Definition re_Y (k : Z → string → option R) : string → option R :=
  two is_digit is_digit (fun hi => two is_digit is_digit (fun lo => k (100 * hi + lo))).

Definition re_m (k : Z → string → option R) (s : string) : option R :=
  two (chr "1") (in_range "0" "2") k s
  <|> two (chr "0") (in_range "1" "9") k s
  <|> one (in_range "1" "9") k s.

Definition re_d (k : Z → string → option R) (s : string) : option R :=
  two (chr "3") (in_range "0" "1") k s
  <|> two (in_range "1" "2") is_digit k s
  <|> two (chr "0") (in_range "1" "9") k s
  <|> one (in_range "1" "9") k s
  <|> lit " " (one (in_range "1" "9") k) s.

Definition re_H (k : Z → string → option R) (s : string) : option R :=
  two (chr "2") (in_range "0" "3") k s
  <|> two (in_range "0" "1") is_digit k s
  <|> one is_digit k s.

Definition re_M (k : Z → string → option R) (s : string) : option R :=
  two (in_range "0" "5") is_digit k s
  <|> one is_digit k s.
End Matchers.

(** The groups of a match and the text left after it. *)
Record found : Type := mk_found {
  f_Y : Z; f_m : Z; f_d : Z; f_H : Z; f_M : Z; f_rest : string
}.

(** The end of the format, [" %H:%M"], after the groups of the date. *)
Definition time_of_day (Y m d : Z) : string → option found :=
  blanks (re_H (fun H => lit ":" (re_M (fun M rest =>
    Some (mk_found Y m d H M rest))))).

(** The compiled format ["%Y-%m-%d %H:%M"], matched at the start of the
    data string. *)
Definition format_regex (data_string : string) : option found :=
  re_Y (fun Y => lit "-" (re_m (fun m => lit "-" (re_d (fun d =>
    time_of_day Y m d))))) data_string.

(** [ValueError] when the string does not match, when text is left after
    the match, or when the numbers are not a date of the calendar. *)
Definition strptime (data_string : string) : outcome datetime :=
  match format_regex data_string with
  | None => Raised ValueError
  | Some f =>
      if negb (String.eqb (f_rest f) EmptyString) then Raised ValueError
      else if valid_date (f_Y f) (f_m f) (f_d f)
      then Returned (mk_datetime (f_Y f) (f_m f) (f_d f) (f_H f) (f_M f) 0 0 None)
      else Raised ValueError
  end.

(** A continuation that cannot go on from a digit, as are those of the
    groups that a literal or a blank follows in the format. *)
Definition stops_at_digit {R : Type} (k : Z → string → option R) : Prop :=
  ∀ v c s, is_digit c = true → k v (String c s) = None.

(** Every result of a matcher satisfies [P]. *)
Definition yields {R : Type} (P : R → Prop) (p : string → option R) : Prop :=
  ∀ s r, p s = Some r → P r.

End Strptime.

(** ** Computations: events, results and exceptions *)

(** The three action executors, with the arguments of one call. *)
Inductive call : Type :=
  | call_send_email (sender password recipient : string) (subject message : json)
  | call_get_stock_price (ticker : json)
  | call_create_calendar_invite (event_details : json).

(** The console lines the program prints, by the statement that prints
    them and the values it interpolates. *)
Inductive line : Type :=
  | DispatchExecuting (task : json)
  | DispatchNoEventDetails
  | DispatchUnknownTaskType (task_type : json)
  | SchedulerErrorParsingTime (task_time_str : json) (e : exn)
  | SchedulerScheduling (task_type : json) (delay : Z) (scheduled_time : datetime)
  | EmailSent (recipient : string)
  | EmailFailed (e : exn)
  | EventCreated (html_link : json)
  | ParserNotValidJson
  | ParserRawOutput (llm_output : string)
  | PrettyTasks (tasks : json)
  | MainRunning.

(** What a computation does that can be observed: it prints a line,
    enters an executor, or starts a one-shot timer
    ([threading.Timer(delay, dispatch_task, args=[task]).start()], the
    delay in microseconds). *)
Inductive event : Type :=
  | Print (l : line)
  | Call (c : call)
  | TimerStart (delay : Z) (task : json).

Definition M (A : Type) : Type := (list event * outcome A)%type.

Definition ret {A : Type} (a : A) : M A := ([], Returned a).

Definition bind {A B : Type} (m : M A) (f : A → M B) : M B :=
  match m with
  | (tr, Returned a) => let '(tr', r) := f a in ((tr ++ tr')%list, r)
  | (tr, Raised e) => (tr, Raised e)
  end.

Notation "x <- c1 ;; c2" := (bind c1 (fun x => c2))
  (at level 100, c1 at next level, right associativity).
Notation "c1 ;; c2" := (bind c1 (fun _ => c2))
  (at level 100, right associativity).

(** An event happens.  For [Print], the text is taken to be one that the
    standard output can encode: [print] of a [str] with a lone surrogate
    raises [UnicodeEncodeError], which is not modelled. *)
Definition emit (ev : event) : M unit := ([ev], Returned tt).

Definition raise {A : Type} (e : exn) : M A := ([], Raised e).

Definition lift {A : Type} (o : outcome A) : M A := ([], o).

(** [try: body / except C as e: handler e], where [catches] tells the
    exceptions of class [C].  What the handler raises is not caught. *)
Definition try_except {A : Type} (catches : exn → bool) (body : M A)
    (handler : exn → M A) : M A :=
  match body with
  | (tr, Raised e) =>
      if catches e then let '(tr', r) := handler e in ((tr ++ tr')%list, r)
      else (tr, Raised e)
  | done => done
  end.

(** [except Exception] *)
Definition any_Exception (e : exn) : bool := true.

Definition trace {A : Type} (m : M A) : list event := fst m.
Definition result {A : Type} (m : M A) : outcome A := snd m.

(** [d.get(key, dflt)]; a value that is not a [dict] has no [get]. *)
Definition dict_get (d : json) (key : string) (dflt : json) : M json :=
  match d with
  | JObj m => ret (default dflt (m !! key))
  | _ => raise AttributeError
  end.

(** The receiver of [.lower()]; a value that is not a [str] has no
    [lower]. *)
Definition as_str (v : json) : M string :=
  match v with
  | JStr s => ret s
  | _ => raise AttributeError
  end.

(** ** The environment: libraries and services outside the repository *)

Record Env : Type := {
  (** [datetime.datetime.now()], by the number of the reading *)
  clock : nat → datetime;
  (** [datetime.datetime.fromisoformat] on a [str] *)
  fromisoformat : string → outcome datetime;
  (** [str(v)] for a value that is not a [str], as an f-string renders it *)
  render : json → string;
  (** an SMTP session: connect, [starttls], [login sender password],
      [sendmail sender recipient msg], [quit] *)
  smtp : string → string → string → string → outcome unit;
  (** [yf.Ticker(ticker).info.get('regularMarketPrice', None)] *)
  regular_market_price : json → outcome json;
  (** credentials, [build] and [events().insert(...).execute()]; the
      result is the [htmlLink] of the created event *)
  calendar_insert : json → outcome json;
  (** [client.models.generate_content(...).text] *)
  generate_content : string → outcome string;
  (** [json.loads] *)
  json_loads : string → outcome json
}.

(** ** The program *)

Definition nl : string := String "010" EmptyString.
Definition dq : string := String "034" EmptyString.

(** [main.py], lines 10-11. *)
Definition EMAIL_SENDER : string := "example@gmail.com".
Definition EMAIL_PASSWORD : string := "16 digit app password here".

Section Program.
Variable env : Env.

(** [f"{v}"] *)
Definition fstr (v : json) : string :=
  match v with
  | JStr s => s
  | _ => render env v
  end.

(** *** modules/email_sender.py *)

Definition send_email (sender password recipient : string)
    (subject message : json) : M unit :=
  emit (Call (call_send_email sender password recipient subject message)) ;;
  try_except any_Exception
    (let msg := ("Subject: " ++ fstr subject ++ nl ++ nl ++ fstr message)%string in
     lift (smtp env sender password recipient msg) ;;
     emit (Print (EmailSent recipient)))
    (fun e => emit (Print (EmailFailed e))).

(** *** modules/stock_fetcher.py *)

Definition get_stock_price (ticker : json) : M json :=
  emit (Call (call_get_stock_price ticker)) ;;
  price <- lift (regular_market_price env ticker) ;;
  match price with
  | JNull => ret (JStr "Price not available")
  | _ => ret price
  end.

(** *** modules/calendar_invite.py *)

Definition create_calendar_invite (event_details : json) : M unit :=
  emit (Call (call_create_calendar_invite event_details)) ;;
  html_link <- lift (calendar_insert env event_details) ;;
  emit (Print (EventCreated html_link)).

(** *** main.py: dispatch_task *)

(** Lines 47-49 and 60-62: the recipient of an email. *)
Definition resolve_email (task : json) : M string :=
  email <- dict_get task "email" (JStr EMAIL_SENDER) ;;
  email <- as_str email ;;
  if String.eqb (lower email) "unknown" then ret EMAIL_SENDER else ret email.

(** Lines 71-81: the event built from plain start and end strings. *)
Definition structured_event (summary start_ end_ : json) : json :=
  JObj (<["summary" := summary]>
       (<["start" := JObj (<["dateTime" := start_]>
                          (<["timeZone" := JStr "America/Los_Angeles"]> ∅))]>
       (<["end" := JObj (<["dateTime" := end_]>
                        (<["timeZone" := JStr "America/Los_Angeles"]> ∅))]> ∅))).

Definition dispatch_task (task : json) : M unit :=
  task_type <- dict_get task "task_type" JNull ;;
  emit (Print (DispatchExecuting task)) ;;
  if eq_str task_type "email_reminder" then
    email <- resolve_email task ;;
    subject <- dict_get task "subject" (JStr "Reminder") ;;
    message <- dict_get task "message" (JStr EmptyString) ;;
    send_email EMAIL_SENDER EMAIL_PASSWORD email subject message
  else if eq_str task_type "stock_price" then
    ticker <- dict_get task "stock_symbol" (JStr "AAPL") ;;
    price <- get_stock_price ticker ;;
    subject <- dict_get task "subject"
                 (JStr ("Stock Price Update for " ++ fstr ticker)%string) ;;
    let message :=
      JStr ("The current price for " ++ fstr ticker ++ " is " ++ fstr price)%string in
    email <- resolve_email task ;;
    send_email EMAIL_SENDER EMAIL_PASSWORD email subject message
  else if eq_str task_type "calendar_invite" then
    event_details <- dict_get task "event" JNull ;;
    if truthy event_details then
      start_ <- dict_get event_details "start" JNull ;;
      event_details <-
        (if is_str start_ then
           summary <- dict_get event_details "summary" (JStr "Meeting") ;;
           start_ <- dict_get event_details "start" JNull ;;
           end_ <- dict_get event_details "end" JNull ;;
           ret (structured_event summary start_ end_)
         else ret event_details) ;;
      create_calendar_invite event_details
    else emit (Print DispatchNoEventDetails)
  else emit (Print (DispatchUnknownTaskType task_type)).

(** *** main.py: schedule_task *)

(** Lines 120-126, the body of the [try].  A time that is not a [str]
    raises there as well: ["T" in v] is a [TypeError] for [None], a
    number or a boolean; a list or a dict that holds ["T"] reaches
    [fromisoformat], which takes a [str] only; one that does not is
    formatted after the date as text that starts with a bracket, which
    the format does not match. *)
Definition parse_time (now : datetime) (task_time_str : json) : outcome datetime :=
  match task_time_str with
  | JStr s =>
      if char_in "T" s then fromisoformat env s
      else
        let today := date_of now in
        Strptime.strptime (str_date today ++ " " ++ s)%string
  | JArr l => if existsb (fun v => eq_str v "T") l then Raised TypeError
              else Raised ValueError
  | JObj m => if bool_decide (is_Some (m !! "T")) then Raised TypeError
              else Raised ValueError
  | _ => Raised TypeError
  end.

(** [now] is the reading of the clock at line 117. *)
Definition schedule_task (now : datetime) (task : json) : M unit :=
  task_time_str <- dict_get task "time" (JStr EmptyString) ;;
  parsed <-
    try_except any_Exception
      (scheduled_time <- lift (parse_time now task_time_str) ;;
       ret (Some scheduled_time))
      (fun e =>
         emit (Print (SchedulerErrorParsingTime task_time_str e)) ;;
         dispatch_task task ;;
         ret None) ;;
  match parsed with
  | None => ret tt
  | Some scheduled_time =>
      delay <- lift (datetime_sub scheduled_time now) ;;
      task_type <- dict_get task "task_type" JNull ;;
      let delay := if eq_str task_type "calendar_invite" then 0 else delay in
      let delay := if delay <? 0 then 0 else delay in
      emit (Print (SchedulerScheduling task_type delay scheduled_time)) ;;
      emit (TimerStart delay task)
  end.
End Program.

(** ** modules/gemini_parser.py *)

(** The instructions that precede the task text in the prompt (lines
    89-113); [dq] is a double quote and [nl] a line feed. *)
Definition PROMPT_HEADER : string :=
  String.concat EmptyString
    ["You are an assistant that parses user instructions about tasks into JSON."; nl; nl;
     "The user will provide lines like:"; nl;
     "- "; dq; "Remind me to do X at HH:MM"; dq; nl;
     "- "; dq; "Send me the price of NVDA stock via email at HH:MM"; dq; nl;
     "- "; dq; "Add an invite for a meeting on YYYY-MM-DD at HH:MM"; dq; nl; nl;
     "Output a JSON array of task objects. Each object has:"; nl;
     "1) "; dq; "task_type"; dq; " : one of ["; dq; "email_reminder"; dq; ", "; dq; "stock_price"; dq; ", "; dq; "calendar_invite"; dq; "]"; nl;
     "2) "; dq; "time"; dq; " : a string like "; dq; "17:00"; dq; " or in ISO format, e.g. "; dq; "2025-03-15T16:30:00"; dq; nl;
     "3) Additional fields depending on the task type:"; nl;
     "   - For an email_reminder: "; dq; "email"; dq; ", "; dq; "subject"; dq; ", "; dq; "message"; dq; nl;
     "   - For a stock_price: "; dq; "stock_symbol"; dq; ", "; dq; "email"; dq; ", "; dq; "subject"; dq; nl;
     "   - For a calendar_invite: an "; dq; "event"; dq; " object with "; dq; "summary"; dq; ", "; dq; "start"; dq; ", and "; dq; "end"; dq; nl; nl;
     "Output valid JSON only, with no extra text. For example:"; nl; nl;
     "["; nl;
     "  {"; nl;
     "    "; dq; "task_type"; dq; ": "; dq; "email_reminder"; dq; ","; nl;
     "    "; dq; "email"; dq; ": "; dq; "someone@gmail.com"; dq; ","; nl;
     "    "; dq; "subject"; dq; ": "; dq; "Reminder"; dq; ","; nl;
     "    "; dq; "message"; dq; ": "; dq; "Remind me to do X"; dq; ","; nl;
     "    "; dq; "time"; dq; ": "; dq; "17:00"; dq; nl;
     "  }"; nl;
     "]"; nl; nl;
     "Now parse these instructions into JSON:"; nl; nl].

Section Parser.
Variable env : Env.

Definition call_gemini (prompt : string) : M string :=
  text <- lift (generate_content env prompt) ;;
  ret (strip text).

Definition clean_llm_output (llm_output : string) : string :=
  let llm_output :=
    if startswith "```json" llm_output
    then strip (drop_str (String.length "```json") llm_output)
    else llm_output in
  if endswith "```" llm_output then strip (drop_last 3 llm_output)
  else llm_output.

Definition parse_tasks (task_text : string) : M json :=
  let prompt := (PROMPT_HEADER ++ task_text)%string in
  llm_output <- call_gemini prompt ;;
  let llm_output := clean_llm_output llm_output in
  try_except is_JSONDecodeError
    (tasks <- lift (json_loads env llm_output) ;;
     ret tasks)
    (fun e =>
       emit (Print ParserNotValidJson) ;;
       emit (Print (ParserRawOutput llm_output)) ;;
       ret (JArr [])).

Definition pretty_print_tasks (tasks : json) : M unit :=
  emit (Print (PrettyTasks tasks)).
End Parser.

(** ** main.py: main *)

(** The values a [for] loop draws from [v]: the items of a list, the keys
    of a dict, the characters of a string; nothing else is iterable. *)
Definition iterate (v : json) : M (list json) :=
  match v with
  | JArr l => ret l
  | JObj m => ret (JStr <$> (map_to_list m).*1)
  | JStr s => ret ((fun c => JStr (String c EmptyString)) <$> list_ascii_of_string s)
  | _ => raise TypeError
  end.

Section Main.
Variable env : Env.

(** Lines 179-180: the scheduling pass; the task at position [i] of the
    pass reads the clock at [clock env i]. *)
Fixpoint schedule_all (i : nat) (tasks : list json) : M unit :=
  match tasks with
  | [] => ret tt
  | task :: rest =>
      schedule_task env (clock env i) task ;;
      schedule_all (S i) rest
  end.

(** [main], from the text of [todo.txt] up to the idle loop. *)
Definition main (tasks_text : string) : M unit :=
  tasks <- parse_tasks env tasks_text ;;
  pretty_print_tasks tasks ;;
  tasks <- iterate tasks ;;
  schedule_all 0 tasks ;;
  emit (Print MainRunning).
End Main.

(** ** Reference definitions for the statements *)

(** Equality of strings up to the case of letters, character by
    character. *)
Fixpoint caseless_eq (s t : string) : bool :=
  match s, t with
  | EmptyString, EmptyString => true
  | String a s', String b t' =>
      Ascii.eqb (lower_char a) (lower_char b) && caseless_eq s' t'
  | _, _ => false
  end.

(** The recipient of an email by the rule of the dispatcher contract:
    the operator's address when the field is missing or is "unknown" in
    any case, the field otherwise. *)
Definition contract_recipient (email : option string) : string :=
  match email with
  | None => EMAIL_SENDER
  | Some s => if caseless_eq s "unknown" then EMAIL_SENDER else s
  end.

(** Text of ASCII characters only. *)
Fixpoint is_ascii (s : string) : bool :=
  match s with
  | EmptyString => true
  | String c s' => (nat_of_ascii c <? 128)%nat && is_ascii s'
  end.

(** An email field that is missing, or a string of ASCII characters. *)
Definition email_ascii (email : option string) : bool :=
  match email with
  | Some s => is_ascii s
  | None => true
  end.

(** A task type that is missing, or a string of ASCII characters: one
    that line 86 can print. *)
Definition tag_ascii (task_type : option json) : bool :=
  match task_type with
  | None => true
  | Some (JStr s) => is_ascii s
  | Some _ => false
  end.

(** [v[key]] in a nested structure, when there is one. *)
Definition field (v : json) (key : string) : option json :=
  match v with
  | JObj m => m !! key
  | _ => None
  end.

(** The line that ends [send_email]. *)
Definition email_report (env : Env) (recipient : string) (subject message : json)
    : line :=
  match smtp env EMAIL_SENDER EMAIL_PASSWORD recipient
          ("Subject: " ++ fstr env subject ++ nl ++ nl ++ fstr env message)%string with
  | Returned _ => EmailSent recipient
  | Raised e => EmailFailed e
  end.

Definition is_call (ev : event) : bool :=
  match ev with Call _ => true | _ => false end.

(** A timer was started for [task]. *)
Definition armed (task : json) (tr : list event) : Prop :=
  ∃ delay, In (TimerStart delay task) tr.

(** [task] reached the dispatcher. *)
Definition dispatched (task : json) (tr : list event) : Prop :=
  In (Print (DispatchExecuting task)) tr.

(** The delay of the timer that [schedule_task] starts (lines 133-140). *)
Definition timer_delay (task_type : json) (scheduled_time now : datetime) : Z :=
  if eq_str task_type "calendar_invite" then 0
  else Z.max 0 (to_micro scheduled_time - to_micro now).

(** [parse_tasks] returned a sequence of task records. *)
Definition is_task_list (r : outcome json) : Prop :=
  ∃ l, r = Returned (JArr l) ∧ Forall (fun t => ∃ m, t = JObj m) l.

(** The rule that the spec gives for the subject of a "stock_price"
    record, that of "email_reminder": every call of the email executor
    carries the subject field, or "Reminder" when there is none. *)
Definition subject_as_for_reminder (m : gmap string json) (tr : list event)
    : Prop :=
  ∀ sender password recipient subject message,
    In (Call (call_send_email sender password recipient subject message)) tr →
    subject = default (JStr "Reminder") (m !! "subject").

(** What [get_stock_price] returns for the value of the quote service. *)
Definition shown_price (price : json) : json :=
  match price with
  | JNull => JStr "Price not available"
  | _ => price
  end.

(** ** Sample inputs *)

Definition dict (l : list (string * json)) : gmap string json := list_to_map l.

(** 2025-03-15 09:30:12.250000, local time. *)
Definition sample_now : datetime := mk_datetime 2025 3 15 9 30 12 250000 None.

(** An environment in which every service answers.  [fromisoformat] and
    [json_loads] are given on the texts the samples use, with the values
    the libraries return for them. *)
Definition sample_fromisoformat (s : string) : outcome datetime :=
  if String.eqb s "2025-03-15T16:30:00"
  then Returned (mk_datetime 2025 3 15 16 30 0 0 None)
  else if String.eqb s "2025-03-15T16:30:00+00:00"
  then Returned (mk_datetime 2025 3 15 16 30 0 0 (Some 0))
  else Raised ValueError.

Definition sample_json_loads (s : string) : outcome json :=
  if String.eqb s "42" then Returned (JInt 42)
  else if String.eqb s "[]" then Returned (JArr [])
  else Raised JSONDecodeError.

Definition sample_env : Env := {|
  clock := fun _ => sample_now;
  fromisoformat := sample_fromisoformat;
  render := fun v => match v with JFloat _ => "120.5" | _ => "?" end;
  smtp := fun _ _ _ _ => Returned tt;
  regular_market_price := fun _ => Returned (JFloat 120.5);
  calendar_insert := fun _ => Returned (JStr "https://calendar.example/event");
  generate_content := fun _ => Returned "42";
  json_loads := sample_json_loads
|}.

(** The same, with the calendar service failing. *)
Definition calendar_down : Env := {|
  clock := clock sample_env;
  fromisoformat := fromisoformat sample_env;
  render := render sample_env;
  smtp := smtp sample_env;
  regular_market_price := regular_market_price sample_env;
  calendar_insert := fun _ => Raised (ServiceError "googleapiclient");
  generate_content := generate_content sample_env;
  json_loads := json_loads sample_env
|}.

(** The same, with the quote service failing. *)
Definition quotes_down : Env := {|
  clock := clock sample_env;
  fromisoformat := fromisoformat sample_env;
  render := render sample_env;
  smtp := smtp sample_env;
  regular_market_price := fun _ => Raised (ServiceError "yfinance");
  calendar_insert := calendar_insert sample_env;
  generate_content := generate_content sample_env;
  json_loads := json_loads sample_env
|}.

Definition sample_event : gmap string json :=
  dict [("summary", JStr "Review");
        ("start", JStr "2025-03-15T16:30:00");
        ("end", JStr "2025-03-15T17:00:00")].

Definition structured_sample_event : gmap string json :=
  dict [("start", JObj (dict [("dateTime", JStr "2025-03-15T16:30:00")]));
        ("end", JStr "2025-03-15T17:00:00")].

(** A calendar invite with an ISO time that carries a UTC offset. *)
Definition invite_with_offset : gmap string json :=
  dict [("task_type", JStr "calendar_invite");
        ("time", JStr "2025-03-15T16:30:00+00:00");
        ("event", JObj sample_event)].

(** A calendar invite with no time field. *)
Definition invite_without_time : gmap string json :=
  dict [("task_type", JStr "calendar_invite");
        ("event", JObj sample_event)].

(** A calendar invite whose event is structured already. *)
Definition invite_structured : gmap string json :=
  dict [("task_type", JStr "calendar_invite");
        ("time", JStr "2025-03-15T16:30:00");
        ("event", JObj structured_sample_event)].

Definition reminder_at_17 : gmap string json :=
  dict [("task_type", JStr "email_reminder");
        ("time", JStr "17:00");
        ("email", JStr "UNKNOWN")].

Definition reminder_bad_time : gmap string json :=
  dict [("task_type", JStr "email_reminder");
        ("time", JStr "25:99")].

Definition stock_bad_time : gmap string json :=
  dict [("task_type", JStr "stock_price");
        ("stock_symbol", JStr "NVDA");
        ("time", JStr "25:99")].

Definition stock_without_subject : gmap string json :=
  dict [("task_type", JStr "stock_price");
        ("time", JStr "09:00")].

Definition frobnicate : gmap string json :=
  dict [("task_type", JStr "frobnicate")].

(** ** modules/calendar_invite.py: get_credentials *)

(** What [get_credentials] reads of a credentials object during one run:
    its [valid] and [expired] properties, as they are at that time (they
    depend on the expiry of the token and on the clock, so they do not
    carry over to a later run), and its [refresh_token]; [token] tells one
    object from another. *)
Record credentials : Type := mk_credentials {
  token : string;
  valid : bool;
  expired : bool;
  refresh_token : option string
}.

(** The Google libraries that issue credentials. *)
Record AuthEnv : Type := {
  (** [creds.refresh(Request())]: the object after the call *)
  refresh : credentials → outcome credentials;
  (** [InstalledAppFlow.from_client_secrets_file(...).run_local_server(...)] *)
  run_local_server : outcome credentials
}.

Inductive auth_event : Type :=
  | RefreshCall (creds : credentials)
  | FlowCall
  | PickleDump (creds : credentials).

(** A run of [get_credentials]: what it called, the content of
    [token.pickle] after it, and what it returned or raised. *)
Record auth_run : Type := mk_auth_run {
  auth_trace : list auth_event;
  pickle_after : option credentials;
  auth_result : outcome credentials
}.

(** The truth value of [creds.refresh_token], a string or [None]. *)
Definition has_refresh_token (creds : credentials) : bool :=
  match refresh_token creds with
  | Some s => negb (String.eqb s EmptyString)
  | None => false
  end.

(** Lines 53-54: the new credentials are written to [token.pickle];
    when the renewal raised, the file is as it was. *)
Definition dump_and_return (token_pickle : option credentials)
    (tr : list auth_event) (renewed : outcome credentials) : auth_run :=
  match renewed with
  | Returned creds =>
      mk_auth_run (tr ++ [PickleDump creds])%list (Some creds) (Returned creds)
  | Raised e => mk_auth_run tr token_pickle (Raised e)
  end.

(** Lines 32-56.  [token_pickle] is the content of [token.pickle], a
    pickled credentials object, or [None] when the file does not exist;
    reading and writing the file do not fail. *)
Definition get_credentials (auth : AuthEnv) (token_pickle : option credentials)
    : auth_run :=
  match token_pickle with
  | Some creds =>
      if valid creds then mk_auth_run [] token_pickle (Returned creds)
      else if expired creds && has_refresh_token creds
      then dump_and_return token_pickle [RefreshCall creds] (refresh auth creds)
      else dump_and_return token_pickle [FlowCall] (run_local_server auth)
  | None => dump_and_return token_pickle [FlowCall] (run_local_server auth)
  end.

Definition is_flow (ev : auth_event) : bool :=
  match ev with FlowCall => true | _ => false end.

Definition is_refresh (ev : auth_event) : bool :=
  match ev with RefreshCall _ => true | _ => false end.

(** ** Predicates on traces *)

Definition is_timer (ev : event) : bool :=
  match ev with TimerStart _ _ => true | _ => false end.

(** The executors that the branch of a task type may enter. *)
Definition call_of_type (task_type : json) (c : call) : bool :=
  match c with
  | call_send_email sender password _ _ _ =>
      (eq_str task_type "email_reminder" || eq_str task_type "stock_price")
      && String.eqb sender EMAIL_SENDER && String.eqb password EMAIL_PASSWORD
  | call_get_stock_price _ => eq_str task_type "stock_price"
  | call_create_calendar_invite _ => eq_str task_type "calendar_invite"
  end.

(** What the dispatcher may do for a record of a given type: print, and
    enter the executors of that type; it starts no timer. *)
Definition dispatch_event (task_type : json) (ev : event) : bool :=
  match ev with
  | Print _ => true
  | Call c => call_of_type task_type c
  | TimerStart _ _ => false
  end.

(** Every event of a computation satisfies [P]. *)
Definition all_events {A : Type} (P : event → bool) (m : M A) : Prop :=
  Forall (λ ev, P ev = true) (trace m).

(** A reminder whose email field is missing or an ASCII string and whose
    time, when there is one, is an ASCII string without "T". *)
Definition plain_reminder (m : gmap string json) : Prop :=
  m !! "task_type" = Some (JStr "email_reminder")
  ∧ (∃ email : option string,
       m !! "email" = JStr <$> email ∧ email_ascii email = true)
  ∧ (∃ s, default (JStr EmptyString) (m !! "time") = JStr s
          ∧ char_in "T" s = false ∧ is_ascii s = true).

(** A string of blanks only. *)
Fixpoint all_space (w : string) : bool :=
  match w with
  | EmptyString => true
  | String c w' => is_space c && all_space w'
  end.

(** Sample credentials. *)
Definition fresh_credentials : credentials :=
  mk_credentials "ya29.fresh" true false (Some "1//refresh").

Definition stale_credentials : credentials :=
  mk_credentials "ya29.stale" false true (Some "1//refresh").

Definition sample_auth : AuthEnv := {|
  refresh := fun _ => Returned fresh_credentials;
  run_local_server := Returned fresh_credentials
|}.

(** Google libraries that fail: no client secrets file, no network. *)
Definition auth_down : AuthEnv := {|
  refresh := fun _ => Raised (ServiceError "google.auth");
  run_local_server := Raised (ServiceError "google_auth_oauthlib")
|}.

(** More sample tasks and environments. *)
Definition invite_without_event : gmap string json :=
  dict [("task_type", JStr "calendar_invite");
        ("time", JStr "17:00")].

Definition invite_event_text : gmap string json :=
  dict [("task_type", JStr "calendar_invite");
        ("event", JStr "Review tomorrow at 3pm")].

Definition reminder_null_email : gmap string json :=
  dict [("task_type", JStr "email_reminder");
        ("email", JNull)].

Definition stock_null_email : gmap string json :=
  dict [("task_type", JStr "stock_price");
        ("email", JNull)].

(** The model answers with text that is not JSON. *)
Definition chatty_env : Env := {|
  clock := clock sample_env;
  fromisoformat := fromisoformat sample_env;
  render := render sample_env;
  smtp := smtp sample_env;
  regular_market_price := regular_market_price sample_env;
  calendar_insert := calendar_insert sample_env;
  generate_content := fun _ => Returned "Sure, here are your tasks";
  json_loads := json_loads sample_env
|}.

(** The model answers with an empty list in a Markdown fence. *)
Definition fenced_env : Env := {|
  clock := clock sample_env;
  fromisoformat := fromisoformat sample_env;
  render := render sample_env;
  smtp := smtp sample_env;
  regular_market_price := regular_market_price sample_env;
  calendar_insert := calendar_insert sample_env;
  generate_content := fun _ => Returned ("```json" ++ nl ++ "[]" ++ nl ++ "```")%string;
  json_loads := json_loads sample_env
|}.

(** The model call fails. *)
Definition model_down : Env := {|
  clock := clock sample_env;
  fromisoformat := fromisoformat sample_env;
  render := render sample_env;
  smtp := smtp sample_env;
  regular_market_price := regular_market_price sample_env;
  calendar_insert := calendar_insert sample_env;
  generate_content := fun _ => Raised (ServiceError "google.genai");
  json_loads := json_loads sample_env
|}.

(** * Properties *)

Ltac zlia := Z.div_mod_to_equations; lia.

(** Case analysis on an integer known to lie in a small range. *)
Tactic Notation "enum_below" constr(z) integer(n) tactic3(tac) :=
  let i := fresh "i" in
  rewrite <- (Z2Nat.id z) in * by lia;
  generalize dependent (Z.to_nat z); intros i; intros;
  do n (destruct i as [| i]; [tac |]); exfalso; lia.

(** ** Strings *)

Lemma append_String (a : ascii) (s t : string) :
  (String a s ++ t)%string = String a (s ++ t)%string.
Proof. reflexivity. Qed.

Lemma append_Empty (t : string) : (EmptyString ++ t)%string = t.
Proof. reflexivity. Qed.

Lemma append_assoc (a b c : string) : ((a ++ b) ++ c = a ++ (b ++ c))%string.
Proof.
  induction a as [| x a IH]; [reflexivity |].
  rewrite !append_String. by rewrite IH.
Qed.

Ltac norm_append := rewrite ?append_String, ?append_Empty.

(** [caseless_eq] against a text in lower case is the test of line 48. *)
Lemma caseless_eq_lower (s t : string) :
  lower t = t → caseless_eq s t = String.eqb (lower s) t.
Proof.
  revert t. induction s as [| a s IH]; intros [| b t] Ht; try reflexivity.
  cbn [lower] in Ht. injection Ht as Hb Ht.
  cbn [caseless_eq lower String.eqb]. rewrite Hb, (IH t Ht).
  destruct (Ascii.eqb _ b); reflexivity.
Qed.

Lemma digit_char_spec (n : Z) :
  0 <= n < 10 → is_digit (digit_char n) = true ∧ digit_val (digit_char n) = n.
Proof.
  intros H. enum_below n 10 (split; reflexivity).
Qed.

Lemma digit_not_space (c : ascii) : is_digit c = true → is_space c = false.
Proof. destruct c as [[] [] [] [] [] [] [] []]; try discriminate; reflexivity. Qed.

Lemma digit_not_T (c : ascii) : is_digit c = true → Ascii.eqb c "T" = false.
Proof. destruct c as [[] [] [] [] [] [] [] []]; try discriminate; reflexivity. Qed.

Lemma fmt2_no_T (n : Z) : 0 <= n < 100 → char_in "T" (fmt2 n) = false.
Proof.
  intros H. unfold fmt2. cbn [char_in].
  destruct (digit_char_spec (n / 10 mod 10)) as [H1 _]; [zlia |].
  destruct (digit_char_spec (n mod 10)) as [H2 _]; [zlia |].
  by rewrite (digit_not_T _ H1), (digit_not_T _ H2).
Qed.

Lemma char_in_app (c : ascii) (s t : string) :
  char_in c (s ++ t) = char_in c s || char_in c t.
Proof.
  induction s as [| a s IH]; [reflexivity |].
  rewrite append_String. cbn [char_in]. rewrite IH. by rewrite orb_assoc.
Qed.

(** ** The format of [strptime] on the text that [schedule_task] builds *)

Section Regex.
Import Strptime.
Context {R : Type}.
Implicit Types k : Z → string → option R.

Lemma lit_same (c : ascii) (k' : string → option R) (s : string) :
  lit c k' (String c s) = k' s.
Proof. unfold lit. by rewrite Ascii.eqb_refl. Qed.

Lemma lit_stops (l : ascii) k :
  is_digit l = false → stops_at_digit (fun v => lit l (k v)).
Proof.
  intros Hl v c s Hc. unfold lit.
  destruct (Ascii.eqb_spec c l) as [-> | _]; [congruence | reflexivity].
Qed.

Lemma blanks_stops k : stops_at_digit (fun v => blanks (k v)).
Proof. intros v c s Hc. cbn [blanks]. by rewrite digit_not_space. Qed.

Lemma re_Y_fmt4 k (y : Z) (rest : string) :
  0 <= y <= 9999 → re_Y k (fmt4 y ++ rest)%string = k y rest.
Proof.
  intros Hy. unfold fmt4, fmt2, re_Y, two, one. norm_append.
  destruct (digit_char_spec (y / 1000 mod 10)) as [-> ->]; [zlia |].
  destruct (digit_char_spec (y / 100 mod 10)) as [-> ->]; [zlia |].
  destruct (digit_char_spec (y / 10 mod 10)) as [-> ->]; [zlia |].
  destruct (digit_char_spec (y mod 10)) as [-> ->]; [zlia |].
  f_equal. zlia.
Qed.

(** One value of a two-digit group: evaluate the alternatives, drop
    those whose continuation starts at a digit, keep the first. *)
Ltac run_group Hk :=
  cbv - [orelse]; rewrite ?Hk by reflexivity;
  match goal with
  | |- context [?k ?v ?rest] => is_var k; is_var rest; destruct (k v rest)
  end;
  reflexivity.

Lemma re_m_fmt2 k (m : Z) (rest : string) :
  1 <= m <= 12 → stops_at_digit k →
  re_m k (fmt2 m ++ rest)%string = k m rest.
Proof. intros H Hk. enum_below m 13 (try lia; run_group Hk). Qed.

Lemma re_d_fmt2 k (d : Z) (rest : string) :
  1 <= d <= 31 → stops_at_digit k →
  re_d k (fmt2 d ++ rest)%string = k d rest.
Proof. intros H Hk. enum_below d 32 (try lia; run_group Hk). Qed.

Lemma re_H_fmt2 k (h : Z) (rest : string) :
  0 <= h < 24 → stops_at_digit k →
  re_H k (fmt2 h ++ rest)%string = k h rest.
Proof. intros H Hk. enum_below h 24 (try lia; run_group Hk). Qed.

Lemma re_M_fmt2 k (mi : Z) (rest : string) (r : R) :
  0 <= mi < 60 → k mi rest = Some r →
  re_M k (fmt2 mi ++ rest)%string = Some r.
Proof.
  intros H Hk.
  enum_below mi 60 (cbv - [orelse]; cbv in Hk; rewrite Hk; reflexivity).
Qed.
End Regex.

(** The date at the head of the data string, written by [str_date], is
    read back as it is, whatever follows the blank. *)
Lemma format_regex_str_date (y m d : Z) (s : string) :
  0 <= y <= 9999 → 1 <= m <= 12 → 1 <= d <= 31 →
  Strptime.format_regex (str_date (mk_date y m d) ++ " " ++ s)%string
  = Strptime.time_of_day y m d (String " " s).
Proof.
  intros Hy Hm Hd. unfold Strptime.format_regex, str_date.
  cbn [date_year date_month date_day].
  rewrite !append_assoc. norm_append.
  rewrite re_Y_fmt4 by done. rewrite lit_same.
  rewrite re_m_fmt2; [| done | by apply lit_stops].
  rewrite lit_same.
  rewrite re_d_fmt2; [| done | by apply blanks_stops].
  reflexivity.
Qed.

Lemma time_of_day_hhmm (y m d h mi : Z) :
  0 <= h < 24 → 0 <= mi < 60 →
  Strptime.time_of_day y m d (String " " (fmt2 h ++ ":" ++ fmt2 mi))
  = Some (Strptime.mk_found y m d h mi EmptyString).
Proof.
  intros Hh Hmi. unfold Strptime.time_of_day. cbn [Strptime.blanks].
  change (is_space " ") with true. cbv iota.
  assert (Hdigit : ∀ k, Strptime.blanks (R:=Strptime.found) k
                          (fmt2 h ++ ":" ++ fmt2 mi)%string = None).
  { intros k. unfold fmt2 at 1. norm_append. cbn [Strptime.blanks].
    destruct (digit_char_spec (h / 10 mod 10)) as [Hd _]; [zlia |].
    by rewrite (digit_not_space _ Hd). }
  rewrite Hdigit. cbn [Strptime.orelse].
  rewrite re_H_fmt2; [| done | by apply lit_stops].
  norm_append. rewrite lit_same.
  replace (fmt2 mi) with (fmt2 mi ++ EmptyString)%string
    by (unfold fmt2; by norm_append).
  by apply re_M_fmt2.
Qed.

Lemma valid_date_bounds (y m d : Z) :
  valid_date y m d = true → 1 <= y <= 9999 ∧ 1 <= m <= 12 ∧ 1 <= d <= 31.
Proof.
  unfold valid_date. rewrite !andb_true_iff, !Z.leb_le.
  intros [[[[[? ?] ?] ?] ?] Hd].
  assert (days_in_month y m <= 31).
  { unfold days_in_month.
    repeat match goal with
           | |- context [match ?x with _ => _ end] => destruct x
           end; lia. }
  lia.
Qed.

(** A clock time written with two digits each, after today's date, is
    parsed to that time of today. *)
Lemma strptime_today (y m d h mi : Z) :
  valid_date y m d = true → 0 <= h < 24 → 0 <= mi < 60 →
  Strptime.strptime (str_date (mk_date y m d) ++ " " ++ fmt2 h ++ ":" ++ fmt2 mi)%string
  = Returned (mk_datetime y m d h mi 0 0 None).
Proof.
  intros Hv Hh Hmi. destruct (valid_date_bounds _ _ _ Hv) as (Hy & Hm & Hd).
  unfold Strptime.strptime.
  rewrite format_regex_str_date by lia.
  rewrite time_of_day_hhmm by done.
  cbn [Strptime.f_rest Strptime.f_Y Strptime.f_m Strptime.f_d Strptime.f_H
       Strptime.f_M String.eqb negb].
  by rewrite Hv.
Qed.

(** With nothing, or with "25:99", after today's date, [strptime] raises. *)
Lemma strptime_today_empty (y m d : Z) :
  valid_date y m d = true →
  Strptime.strptime (str_date (mk_date y m d) ++ " " ++ EmptyString)%string
  = Raised ValueError.
Proof.
  intros Hv. destruct (valid_date_bounds _ _ _ Hv) as (Hy & Hm & Hd).
  unfold Strptime.strptime. rewrite format_regex_str_date by lia. reflexivity.
Qed.

Lemma strptime_today_25_99 (y m d : Z) :
  valid_date y m d = true →
  Strptime.strptime (str_date (mk_date y m d) ++ " " ++ "25:99")%string
  = Raised ValueError.
Proof.
  intros Hv. destruct (valid_date_bounds _ _ _ Hv) as (Hy & Hm & Hd).
  unfold Strptime.strptime. rewrite format_regex_str_date by lia. reflexivity.
Qed.

(** Whatever follows the date, a match keeps the groups of the date. *)
Section Yields.
Import Strptime.
Context {R : Type} (P : R → Prop).
Implicit Types k : Z → string → option R.

Lemma orelse_Some (p q : option R) (r : R) :
  p <|> q = Some r → p = Some r ∨ q = Some r.
Proof. destruct p; cbn; auto. Qed.

Lemma yields_one (c : ascii → bool) k :
  (∀ v, yields P (k v)) → yields P (one c k).
Proof.
  intros Hk [| a s] r; cbn; [done |]. destruct (c a); [apply Hk | done].
Qed.

Lemma yields_two (c1 c2 : ascii → bool) k :
  (∀ v, yields P (k v)) → yields P (two c1 c2 k).
Proof. intros Hk. apply yields_one. intros a. by apply yields_one. Qed.

Lemma yields_lit (c : ascii) (k' : string → option R) :
  yields P k' → yields P (lit c k').
Proof.
  intros Hk [| a s] r; cbn; [done |].
  destruct (Ascii.eqb a c); [apply Hk | done].
Qed.

Lemma yields_blanks (k' : string → option R) :
  yields P k' → yields P (blanks k').
Proof.
  intros Hk s. induction s as [| a s IH]; intros r; cbn; [done |].
  destruct (is_space a); [| done].
  intros [H | H]%orelse_Some; [by apply IH | by apply (Hk s)].
Qed.

Lemma yields_re_H k : (∀ v, yields P (k v)) → yields P (re_H k).
Proof.
  intros Hk s r. unfold re_H.
  intros [[H | H]%orelse_Some | H]%orelse_Some; revert H;
    by (apply yields_two || apply yields_one).
Qed.

Lemma yields_re_M k : (∀ v, yields P (k v)) → yields P (re_M k).
Proof.
  intros Hk s r. unfold re_M.
  intros [H | H]%orelse_Some; revert H;
    by (apply yields_two || apply yields_one).
Qed.
End Yields.

Lemma time_of_day_date (y m d : Z) (s : string) (f : Strptime.found) :
  Strptime.time_of_day y m d s = Some f →
  Strptime.f_Y f = y ∧ Strptime.f_m f = m ∧ Strptime.f_d f = d.
Proof.
  revert s f. unfold Strptime.time_of_day.
  apply yields_blanks, yields_re_H. intros H.
  apply yields_lit, yields_re_M. intros M rest r [= <-]. done.
Qed.

(** Any text that parses after today's date gives a naive instant of
    today, at a whole minute. *)
Lemma strptime_date_is_today (y m d : Z) (s : string) (dt : datetime) :
  valid_date y m d = true →
  Strptime.strptime (str_date (mk_date y m d) ++ " " ++ s)%string = Returned dt →
  date_of dt = mk_date y m d ∧ second dt = 0 ∧ microsecond dt = 0
  ∧ utcoffset dt = None.
Proof.
  intros Hv. destruct (valid_date_bounds _ _ _ Hv) as (Hy & Hm & Hd).
  unfold Strptime.strptime. rewrite format_regex_str_date by lia.
  destruct (Strptime.time_of_day y m d (String " " s)) as [f |] eqn:E; [| done].
  destruct (time_of_day_date _ _ _ _ _ E) as (-> & -> & ->).
  destruct (negb _); [done |]. rewrite Hv. by intros [= <-].
Qed.

(** ** Computations *)

Lemma bind_ret {A B : Type} (a : A) (f : A → M B) : (x <- ret a ;; f x) = f a.
Proof. unfold bind, ret. by destruct (f a). Qed.

Lemma bind_emit {B : Type} (ev : event) (f : unit → M B) :
  (x <- emit ev ;; f x) = (ev :: trace (f tt), result (f tt)).
Proof. unfold bind, emit, trace, result. by destruct (f tt). Qed.

Lemma bind_lift_Returned {A B : Type} (a : A) (f : A → M B) :
  (x <- lift (Returned a) ;; f x) = f a.
Proof. apply bind_ret. Qed.

Lemma bind_lift_Raised {A B : Type} (e : exn) (f : A → M B) :
  (x <- lift (Raised e) ;; f x) = raise e.
Proof. reflexivity. Qed.

Lemma bind_assoc {A B C : Type} (m : M A) (f : A → M B) (g : B → M C) :
  (y <- (x <- m ;; f x) ;; g y) = (x <- m ;; y <- f x ;; g y).
Proof.
  destruct m as [tr [a | e]]; [| reflexivity].
  unfold bind. destruct (f a) as [tr1 [b | e]]; [| reflexivity].
  destruct (g b) as [tr2 r]. by rewrite app_assoc.
Qed.

Lemma dict_get_obj (m : gmap string json) (key : string) (dflt : json) :
  dict_get (JObj m) key dflt = ret (default dflt (m !! key)).
Proof. reflexivity. Qed.

Lemma eq_str_false (o : option json) (s : string) :
  o ≠ Some (JStr s) → eq_str (default JNull o) s = false.
Proof.
  intros Ho. destruct o as [[| | | | s' | |] |]; try reflexivity.
  change (String.eqb s' s = false).
  destruct (String.eqb_spec s' s) as [-> | _]; done.
Qed.

(** ** modules/email_sender.py *)

(** [send_email] enters the executor once, prints one line and returns,
    whatever the SMTP session does: line 43 catches every exception. *)
Lemma send_email_returns (env : Env) (sender password recipient : string)
    (subject message : json) :
  ∃ l, send_email env sender password recipient subject message
       = ([Call (call_send_email sender password recipient subject message);
           Print l], Returned tt).
Proof.
  unfold send_email. rewrite bind_emit.
  destruct (smtp env sender password recipient _) as [[] | e];
    eexists; reflexivity.
Qed.

Lemma send_email_operator (env : Env) (recipient : string) (subject message : json) :
  send_email env EMAIL_SENDER EMAIL_PASSWORD recipient subject message
  = ([Call (call_send_email EMAIL_SENDER EMAIL_PASSWORD recipient subject message);
      Print (email_report env recipient subject message)], Returned tt).
Proof.
  unfold send_email, email_report. rewrite bind_emit.
  by destruct (smtp env EMAIL_SENDER EMAIL_PASSWORD recipient _) as [[] | e].
Qed.

(** ** main.py: dispatch_task *)

(** Lines 47-49: the recipient, for an email field that is missing or a
    string, is the one of the contract. *)
Lemma resolve_email_contract (m : gmap string json) (email : option string) :
  m !! "email" = JStr <$> email →
  resolve_email (JObj m) = ret (contract_recipient email).
Proof.
  intros He. unfold resolve_email. rewrite dict_get_obj, bind_ret, He.
  destruct email as [s |].
  - change (as_str (default (JStr EMAIL_SENDER) (JStr <$> Some s))) with (ret s).
    rewrite bind_ret. cbn [contract_recipient]. rewrite (caseless_eq_lower s "unknown") by reflexivity.
    by destruct (String.eqb (lower s) "unknown").
  - reflexivity.
Qed.

(** The head of [dispatch_task] on a record: the type is read, the line
    of line 43 is printed, and the branch of the type runs. *)
Lemma dispatch_task_record (env : Env) (m : gmap string json) (body : M unit) :
  (let task := JObj m in
   let task_type := default JNull (m !! "task_type") in
   body =
     if eq_str task_type "email_reminder" then
       email <- resolve_email task ;;
       subject <- dict_get task "subject" (JStr "Reminder") ;;
       message <- dict_get task "message" (JStr EmptyString) ;;
       send_email env EMAIL_SENDER EMAIL_PASSWORD email subject message
     else if eq_str task_type "stock_price" then
       ticker <- dict_get task "stock_symbol" (JStr "AAPL") ;;
       price <- get_stock_price env ticker ;;
       subject <- dict_get task "subject"
                    (JStr ("Stock Price Update for " ++ fstr env ticker)%string) ;;
       let message :=
         JStr ("The current price for " ++ fstr env ticker ++ " is "
               ++ fstr env price)%string in
       email <- resolve_email task ;;
       send_email env EMAIL_SENDER EMAIL_PASSWORD email subject message
     else if eq_str task_type "calendar_invite" then
       event_details <- dict_get task "event" JNull ;;
       if truthy event_details then
         start_ <- dict_get event_details "start" JNull ;;
         event_details <-
           (if is_str start_ then
              summary <- dict_get event_details "summary" (JStr "Meeting") ;;
              start_ <- dict_get event_details "start" JNull ;;
              end_ <- dict_get event_details "end" JNull ;;
              ret (structured_event summary start_ end_)
            else ret event_details) ;;
         create_calendar_invite env event_details
       else emit (Print DispatchNoEventDetails)
     else emit (Print (DispatchUnknownTaskType task_type))) →
  dispatch_task env (JObj m)
  = (Print (DispatchExecuting (JObj m)) :: trace body, result body).
Proof.
  cbv zeta. intros ->. unfold dispatch_task.
  by rewrite dict_get_obj, bind_ret, bind_emit.
Qed.

(** A task record with no [task_type], or with one that is a string of
    ASCII characters other than "email_reminder", "stock_price" and
    "calendar_invite", makes the dispatcher print the line of line 43 and
    the line that names the unknown type, enter no executor, and return
    normally. *)
Lemma dispatch_unknown_type (env : Env) (m : gmap string json) :
  tag_ascii (m !! "task_type") = true →
  m !! "task_type" ≠ Some (JStr "email_reminder") →
  m !! "task_type" ≠ Some (JStr "stock_price") →
  m !! "task_type" ≠ Some (JStr "calendar_invite") →
  dispatch_task env (JObj m)
  = ([Print (DispatchExecuting (JObj m));
      Print (DispatchUnknownTaskType (default JNull (m !! "task_type")))],
     Returned tt)
  ∧ filter is_call (trace (dispatch_task env (JObj m))) = [].
Proof.
  intros _ H1 H2 H3.
  assert (dispatch_task env (JObj m)
          = ([Print (DispatchExecuting (JObj m));
              Print (DispatchUnknownTaskType (default JNull (m !! "task_type")))],
             Returned tt)) as ->.
  { erewrite dispatch_task_record; [| reflexivity].
    by rewrite (eq_str_false _ _ H1), (eq_str_false _ _ H2), (eq_str_false _ _ H3). }
  done.
Qed.

Lemma dispatch_unknown_type_witness :
  dispatch_task sample_env (JObj frobnicate)
  = ([Print (DispatchExecuting (JObj frobnicate));
      Print (DispatchUnknownTaskType (JStr "frobnicate"))], Returned tt)
  ∧ filter is_call (trace (dispatch_task sample_env (JObj frobnicate))) = [].
Proof.
  apply (dispatch_unknown_type sample_env frobnicate);
    (reflexivity || (vm_compute; discriminate)).
Defined.

(** For an "email_reminder" record whose email field is missing or is a
    string of ASCII characters, the dispatcher calls [send_email] once, as
    the operator,
    with the recipient of the contract (the operator's address when the
    field is missing or is "unknown" in any case, the field otherwise), the
    subject (or "Reminder" when missing) and the message (or the empty
    string when missing); it prints the report of the executor and
    returns. *)
Lemma dispatch_email_reminder (env : Env) (m : gmap string json)
    (email : option string) :
  m !! "task_type" = Some (JStr "email_reminder") →
  m !! "email" = JStr <$> email →
  email_ascii email = true →
  let recipient := contract_recipient email in
  let subject := default (JStr "Reminder") (m !! "subject") in
  let message := default (JStr EmptyString) (m !! "message") in
  dispatch_task env (JObj m)
  = ([Print (DispatchExecuting (JObj m));
      Call (call_send_email EMAIL_SENDER EMAIL_PASSWORD recipient subject message);
      Print (email_report env recipient subject message)],
     Returned tt).
Proof.
  intros Ht He _. cbv zeta.
  erewrite dispatch_task_record; [| reflexivity].
  rewrite Ht. cbn [default from_option id].
  change (eq_str (JStr "email_reminder") "email_reminder") with true. cbv iota.
  rewrite (resolve_email_contract m email He), bind_ret.
  rewrite !dict_get_obj, !bind_ret.
  by rewrite send_email_operator.
Qed.

Lemma dispatch_email_reminder_witness :
  dispatch_task sample_env (JObj reminder_at_17)
  = ([Print (DispatchExecuting (JObj reminder_at_17));
      Call (call_send_email EMAIL_SENDER EMAIL_PASSWORD EMAIL_SENDER
              (JStr "Reminder") (JStr EmptyString));
      Print (EmailSent EMAIL_SENDER)],
     Returned tt).
Proof.
  apply (dispatch_email_reminder sample_env reminder_at_17 (Some "UNKNOWN"));
    reflexivity.
Defined.

(** The fallbacks of the recipient, one by one. *)
Lemma contract_recipient_cases :
  contract_recipient None = EMAIL_SENDER
  ∧ contract_recipient (Some "unknown") = EMAIL_SENDER
  ∧ contract_recipient (Some "UNKNOWN") = EMAIL_SENDER
  ∧ contract_recipient (Some "Unknown") = EMAIL_SENDER
  ∧ contract_recipient (Some "user@example.com") = "user@example.com".
Proof. repeat split. Qed.

(** C4.  On the "email_reminder" record whose email field is null, the
    dispatcher prints the line of line 43 and raises [AttributeError] at
    [email.lower()] on line 48: the recipient is not resolved to the
    operator's address and the email executor is not entered. *)
Theorem dispatch_reminder_null_email :
  reminder_null_email !! "task_type" = Some (JStr "email_reminder")
  ∧ reminder_null_email !! "email" = Some JNull
  ∧ dispatch_task sample_env (JObj reminder_null_email)
    = ([Print (DispatchExecuting (JObj reminder_null_email))],
       Raised AttributeError)
  ∧ filter is_call (trace (dispatch_task sample_env (JObj reminder_null_email)))
    = [].
Proof.
  split; [reflexivity |]. split; [reflexivity |].
  assert (H : dispatch_task sample_env (JObj reminder_null_email)
              = ([Print (DispatchExecuting (JObj reminder_null_email))],
                 Raised AttributeError)).
  { erewrite dispatch_task_record; [| reflexivity].
    vm_compute. reflexivity. }
  split; [exact H |]. by rewrite H.
Qed.

(** C5, as stated, fails: a "stock_price" record with no subject is sent
    with the subject "Stock Price Update for AAPL", not "Reminder". *)
Lemma stock_subject_not_as_for_reminder :
  stock_without_subject !! "subject" = None
  ∧ In (Call (call_send_email EMAIL_SENDER EMAIL_PASSWORD EMAIL_SENDER
                (JStr "Stock Price Update for AAPL")
                (JStr "The current price for AAPL is 120.5")))
       (trace (dispatch_task sample_env (JObj stock_without_subject)))
  ∧ ¬ subject_as_for_reminder stock_without_subject
        (trace (dispatch_task sample_env (JObj stock_without_subject))).
Proof.
  assert (Hin : In (Call (call_send_email EMAIL_SENDER EMAIL_PASSWORD EMAIL_SENDER
                            (JStr "Stock Price Update for AAPL")
                            (JStr "The current price for AAPL is 120.5")))
                  (trace (dispatch_task sample_env (JObj stock_without_subject)))).
  { right. right. left. reflexivity. }
  split; [reflexivity |]. split; [exact Hin |].
  intros H. specialize (H _ _ _ _ _ Hin). discriminate H.
Qed.

(** C5, amended.  For a "stock_price" record whose email field is missing
    or is a string of ASCII characters, and whose quote lookup returns, the
    dispatcher asks for the price of the ticker (or of "AAPL"), then calls
    [send_email] once with the recipient of the contract, as for
    "email_reminder", and with the subject field or, when it is missing,
    "Stock Price Update for" followed by the ticker. *)
Theorem dispatch_stock_price (env : Env) (m : gmap string json)
    (email : option string) (price : json) :
  m !! "task_type" = Some (JStr "stock_price") →
  m !! "email" = JStr <$> email →
  email_ascii email = true →
  let ticker := default (JStr "AAPL") (m !! "stock_symbol") in
  regular_market_price env ticker = Returned price →
  let recipient := contract_recipient email in
  let subject :=
    default (JStr ("Stock Price Update for " ++ fstr env ticker)%string)
            (m !! "subject") in
  let message :=
    JStr ("The current price for " ++ fstr env ticker ++ " is "
          ++ fstr env (shown_price price))%string in
  dispatch_task env (JObj m)
  = ([Print (DispatchExecuting (JObj m));
      Call (call_get_stock_price ticker);
      Call (call_send_email EMAIL_SENDER EMAIL_PASSWORD recipient subject message);
      Print (email_report env recipient subject message)],
     Returned tt).
Proof.
  intros Ht He _ ticker Hp. cbv zeta.
  erewrite dispatch_task_record; [| reflexivity].
  rewrite Ht. cbn [default from_option id].
  change (eq_str (JStr "stock_price") "email_reminder") with false.
  change (eq_str (JStr "stock_price") "stock_price") with true. cbv iota.
  rewrite dict_get_obj, bind_ret. fold ticker.
  unfold get_stock_price. rewrite bind_assoc, bind_emit, Hp, bind_lift_Returned.
  assert (Hshown : (match price with
                    | JNull => ret (JStr "Price not available")
                    | _ => ret price
                    end) = ret (shown_price price)) by (by destruct price).
  rewrite Hshown, bind_ret, dict_get_obj, bind_ret.
  rewrite (resolve_email_contract m email He), bind_ret.
  by rewrite send_email_operator.
Qed.

Lemma dispatch_stock_price_witness :
  dispatch_task sample_env (JObj stock_without_subject)
  = ([Print (DispatchExecuting (JObj stock_without_subject));
      Call (call_get_stock_price (JStr "AAPL"));
      Call (call_send_email EMAIL_SENDER EMAIL_PASSWORD EMAIL_SENDER
              (JStr "Stock Price Update for AAPL")
              (JStr "The current price for AAPL is 120.5"));
      Print (EmailSent EMAIL_SENDER)],
     Returned tt).
Proof.
  apply (dispatch_stock_price sample_env stock_without_subject None (JFloat 120.5));
    reflexivity.
Defined.

(** ** Calendar invites *)

Lemma truthy_record (ev : gmap string json) (key : string) (v : json) :
  ev !! key = Some v → truthy (JObj ev) = true.
Proof.
  intros H. cbn [truthy]. rewrite bool_decide_eq_false_2; [done |].
  intros ->. by rewrite lookup_empty in H.
Qed.

(** The calendar executor is entered once, with the payload it is given. *)
Lemma create_calendar_invite_calls (env : Env) (event_details : json) :
  filter is_call (trace (create_calendar_invite env event_details))
  = [Call (call_create_calendar_invite event_details)].
Proof.
  unfold create_calendar_invite. rewrite bind_emit.
  by destruct (calendar_insert env event_details).
Qed.

(** C6.  For a "calendar_invite" record whose event has plain strings as
    start and end, the dispatcher hands the calendar executor a structured
    event whose [start.dateTime] and [end.dateTime] are those strings and
    whose [start.timeZone] and [end.timeZone] are "America/Los_Angeles". *)
Theorem dispatch_calendar_plain_strings (env : Env) (m ev : gmap string json)
    (s e : string) :
  m !! "task_type" = Some (JStr "calendar_invite") →
  m !! "event" = Some (JObj ev) →
  ev !! "start" = Some (JStr s) →
  ev !! "end" = Some (JStr e) →
  ∃ payload,
    dispatch_task env (JObj m)
    = (emit (Print (DispatchExecuting (JObj m))) ;;
       create_calendar_invite env payload)
    ∧ filter is_call (trace (dispatch_task env (JObj m)))
      = [Call (call_create_calendar_invite payload)]
    ∧ field payload "start" ≫= (λ v, field v "dateTime") = Some (JStr s)
    ∧ field payload "end" ≫= (λ v, field v "dateTime") = Some (JStr e)
    ∧ field payload "start" ≫= (λ v, field v "timeZone")
      = Some (JStr "America/Los_Angeles")
    ∧ field payload "end" ≫= (λ v, field v "timeZone")
      = Some (JStr "America/Los_Angeles").
Proof.
  intros Ht Hev Hs He.
  exists (structured_event (default (JStr "Meeting") (ev !! "summary")) (JStr s) (JStr e)).
  assert (Hrun : dispatch_task env (JObj m)
                 = (emit (Print (DispatchExecuting (JObj m))) ;;
                    create_calendar_invite env
                      (structured_event (default (JStr "Meeting") (ev !! "summary"))
                         (JStr s) (JStr e)))).
  { erewrite dispatch_task_record; [| reflexivity].
    rewrite Ht. cbn [default from_option id].
    change (eq_str (JStr "calendar_invite") "email_reminder") with false.
    change (eq_str (JStr "calendar_invite") "stock_price") with false.
    change (eq_str (JStr "calendar_invite") "calendar_invite") with true. cbv iota.
    rewrite dict_get_obj, bind_ret, Hev. cbn [default from_option id].
    rewrite (truthy_record ev "start" _ Hs).
    rewrite !dict_get_obj, !bind_ret, Hs, He. cbn [default from_option id is_str].
    rewrite !bind_ret. by rewrite bind_emit. }
  split; [exact Hrun |]. split.
  - rewrite Hrun, bind_emit. cbn [trace fst].
    change (filter is_call (Print ?l :: ?tr)) with (filter is_call tr).
    apply create_calendar_invite_calls.
  - repeat split.
Qed.

Lemma dispatch_calendar_plain_strings_witness :
  ∃ payload,
    dispatch_task sample_env (JObj invite_without_time)
    = (emit (Print (DispatchExecuting (JObj invite_without_time))) ;;
       create_calendar_invite sample_env payload)
    ∧ filter is_call (trace (dispatch_task sample_env (JObj invite_without_time)))
      = [Call (call_create_calendar_invite payload)]
    ∧ field payload "start" ≫= (λ v, field v "dateTime")
      = Some (JStr "2025-03-15T16:30:00")
    ∧ field payload "end" ≫= (λ v, field v "dateTime")
      = Some (JStr "2025-03-15T17:00:00")
    ∧ field payload "start" ≫= (λ v, field v "timeZone")
      = Some (JStr "America/Los_Angeles")
    ∧ field payload "end" ≫= (λ v, field v "timeZone")
      = Some (JStr "America/Los_Angeles").
Proof.
  apply (dispatch_calendar_plain_strings sample_env invite_without_time sample_event);
    reflexivity.
Defined.

(** C10.  For a "calendar_invite" record whose event has a start field
    that is not a string, the dispatcher hands the event to the calendar
    executor as it received it: no "Meeting" title is added and no time
    zone, whatever the summary and the end field are. *)
Theorem dispatch_calendar_structured (env : Env) (m ev : gmap string json)
    (start_ : json) :
  m !! "task_type" = Some (JStr "calendar_invite") →
  m !! "event" = Some (JObj ev) →
  ev !! "start" = Some start_ →
  is_str start_ = false →
  dispatch_task env (JObj m)
  = (emit (Print (DispatchExecuting (JObj m))) ;;
     create_calendar_invite env (JObj ev))
  ∧ filter is_call (trace (dispatch_task env (JObj m)))
    = [Call (call_create_calendar_invite (JObj ev))].
Proof.
  intros Ht Hev Hs Hstr.
  assert (Hrun : dispatch_task env (JObj m)
                 = (emit (Print (DispatchExecuting (JObj m))) ;;
                    create_calendar_invite env (JObj ev))).
  { erewrite dispatch_task_record; [| reflexivity].
    rewrite Ht. cbn [default from_option id].
    change (eq_str (JStr "calendar_invite") "email_reminder") with false.
    change (eq_str (JStr "calendar_invite") "stock_price") with false.
    change (eq_str (JStr "calendar_invite") "calendar_invite") with true. cbv iota.
    rewrite dict_get_obj, bind_ret, Hev. cbn [default from_option id].
    rewrite (truthy_record ev "start" _ Hs).
    rewrite dict_get_obj, bind_ret, Hs. cbn [default from_option id].
    rewrite Hstr, bind_ret. by rewrite bind_emit. }
  split; [exact Hrun |].
  rewrite Hrun, bind_emit. cbn [trace fst].
  change (filter is_call (Print ?l :: ?tr)) with (filter is_call tr).
  apply create_calendar_invite_calls.
Qed.

Lemma dispatch_calendar_structured_witness :
  dispatch_task sample_env (JObj invite_structured)
  = (emit (Print (DispatchExecuting (JObj invite_structured))) ;;
     create_calendar_invite sample_env (JObj structured_sample_event))
  ∧ filter is_call (trace (dispatch_task sample_env (JObj invite_structured)))
    = [Call (call_create_calendar_invite (JObj structured_sample_event))].
Proof.
  apply (dispatch_calendar_structured sample_env invite_structured
           structured_sample_event
           (JObj (dict [("dateTime", JStr "2025-03-15T16:30:00")])));
    reflexivity.
Defined.

(** ** main.py: schedule_task *)

Lemma clamp_delay (task_type : json) (st now : datetime) :
  (let delay := to_micro st - to_micro now in
   let delay := if eq_str task_type "calendar_invite" then 0 else delay in
   if delay <? 0 then 0 else delay) = timer_delay task_type st now.
Proof.
  cbv zeta. unfold timer_delay. destruct (eq_str _ _); [reflexivity |].
  destruct (Z.ltb_spec (to_micro st - to_micro now) 0); lia.
Qed.

(** A time that parses to a naive date and time: a line is printed and a
    timer is started for the record, with the delay of lines 133-140. *)
Lemma schedule_task_parsed (env : Env) (now st : datetime) (m : gmap string json) :
  utcoffset now = None → utcoffset st = None →
  parse_time env now (default (JStr EmptyString) (m !! "time")) = Returned st →
  let task_type := default JNull (m !! "task_type") in
  let delay := timer_delay task_type st now in
  schedule_task env now (JObj m)
  = ([Print (SchedulerScheduling task_type delay st); TimerStart delay (JObj m)],
     Returned tt).
Proof.
  intros Hnow Hst Hp. cbv zeta. unfold schedule_task.
  rewrite dict_get_obj, bind_ret, Hp.
  unfold try_except. rewrite bind_lift_Returned. cbn [ret]. rewrite bind_ret.
  unfold datetime_sub. rewrite Hnow, Hst, bind_lift_Returned.
  rewrite dict_get_obj, bind_ret.
  pose proof (clamp_delay (default JNull (m !! "task_type")) st now) as Hd.
  cbv zeta in Hd. rewrite Hd. by rewrite bind_emit.
Qed.

(** A time that parses to an aware date and time: line 133 raises
    [TypeError] outside the [try]; nothing is printed, no timer starts. *)
Lemma schedule_task_aware (env : Env) (now st : datetime) (m : gmap string json)
    (offset : Z) :
  utcoffset now = None → utcoffset st = Some offset →
  parse_time env now (default (JStr EmptyString) (m !! "time")) = Returned st →
  schedule_task env now (JObj m) = ([], Raised TypeError).
Proof.
  intros Hnow Hst Hp. unfold schedule_task.
  rewrite dict_get_obj, bind_ret, Hp.
  unfold try_except. rewrite bind_lift_Returned. cbn [ret]. rewrite bind_ret.
  unfold datetime_sub. by rewrite Hnow, Hst.
Qed.

(** A time that does not parse: the error is printed and the dispatcher
    runs on the same record at once, in the handler of line 127; no timer
    starts, and what the dispatcher raises leaves [schedule_task]. *)
Lemma schedule_task_unparsed (env : Env) (now : datetime) (m : gmap string json)
    (e : exn) :
  parse_time env now (default (JStr EmptyString) (m !! "time")) = Raised e →
  schedule_task env now (JObj m)
  = (Print (SchedulerErrorParsingTime (default (JStr EmptyString) (m !! "time")) e)
       :: trace (dispatch_task env (JObj m)),
     result (dispatch_task env (JObj m))).
Proof.
  intros Hp. unfold schedule_task.
  rewrite dict_get_obj, bind_ret, Hp.
  unfold try_except. rewrite bind_lift_Raised. cbn [raise any_Exception].
  rewrite bind_emit. cbn [trace result fst snd].
  destruct (dispatch_task env (JObj m)) as [tr [[] | e']]; cbn; by rewrite ?app_nil_r.
Qed.

Lemma parse_time_hhmm (env : Env) (now : datetime) (h mi : Z) :
  valid_datetime now = true → 0 <= h < 24 → 0 <= mi < 60 →
  parse_time env now (JStr (fmt2 h ++ ":" ++ fmt2 mi))
  = Returned (mk_datetime (year now) (month now) (day now) h mi 0 0 None).
Proof.
  intros Hv Hh Hmi. unfold parse_time.
  rewrite !char_in_app, !fmt2_no_T by lia. cbn [char_in Ascii.eqb orb].
  change (Ascii.eqb ":" "T") with false. cbn [orb].
  apply strptime_today; try done.
  unfold valid_datetime in Hv. rewrite !andb_true_iff in Hv. tauto.
Qed.

(** Any time without "T" that parses gives a naive instant of the day of
    [now]. *)
Lemma parse_time_clock_today (env : Env) (now st : datetime) (s : string) :
  valid_datetime now = true → char_in "T" s = false →
  parse_time env now (JStr s) = Returned st →
  date_of st = date_of now ∧ utcoffset st = None.
Proof.
  intros Hv HT. unfold parse_time. rewrite HT. intros Hp.
  apply strptime_date_is_today in Hp; [tauto |].
  unfold valid_datetime in Hv. rewrite !andb_true_iff in Hv. tauto.
Qed.

(** C7.  For a record whose time is a clock time "HH:MM" (two digits
    each, hour below 24, minute below 60), scheduled at a valid local
    instant [now], the fire instant that [schedule_task] resolves, prints
    and arms the timer for is [now]'s year, month and day with that hour
    and minute. *)
Theorem schedule_clock_time_today (env : Env) (now : datetime)
    (m : gmap string json) (h mi : Z) :
  valid_datetime now = true →
  utcoffset now = None →
  0 <= h < 24 → 0 <= mi < 60 →
  m !! "time" = Some (JStr (fmt2 h ++ ":" ++ fmt2 mi)) →
  let fire := mk_datetime (year now) (month now) (day now) h mi 0 0 None in
  let task_type := default JNull (m !! "task_type") in
  let delay := timer_delay task_type fire now in
  schedule_task env now (JObj m)
  = ([Print (SchedulerScheduling task_type delay fire); TimerStart delay (JObj m)],
     Returned tt)
  ∧ date_of fire = date_of now ∧ hour fire = h ∧ minute fire = mi.
Proof.
  intros Hv Hnow Hh Hmi Ht. cbv zeta. split; [| done].
  apply schedule_task_parsed; [done | done |].
  rewrite Ht. cbn [default from_option id]. by apply parse_time_hhmm.
Qed.

Lemma schedule_clock_time_today_witness :
  schedule_task sample_env sample_now (JObj reminder_at_17)
  = ([Print (SchedulerScheduling (JStr "email_reminder") 26987750000
               (mk_datetime 2025 3 15 17 0 0 0 None));
      TimerStart 26987750000 (JObj reminder_at_17)],
     Returned tt)
  ∧ date_of (mk_datetime 2025 3 15 17 0 0 0 None) = date_of sample_now
  ∧ hour (mk_datetime 2025 3 15 17 0 0 0 None) = 17
  ∧ minute (mk_datetime 2025 3 15 17 0 0 0 None) = 0.
Proof.
  apply (schedule_clock_time_today sample_env sample_now reminder_at_17 17 0);
    (reflexivity || lia).
Defined.

(** A calendar invite whose time parses to a naive date and time is armed
    with delay 0, whatever that time is. *)
Lemma schedule_calendar_invite_naive (env : Env) (now st : datetime)
    (m : gmap string json) :
  m !! "task_type" = Some (JStr "calendar_invite") →
  utcoffset now = None → utcoffset st = None →
  parse_time env now (default (JStr EmptyString) (m !! "time")) = Returned st →
  schedule_task env now (JObj m)
  = ([Print (SchedulerScheduling (JStr "calendar_invite") 0 st);
      TimerStart 0 (JObj m)],
     Returned tt).
Proof.
  intros Ht Hnow Hst Hp.
  rewrite (schedule_task_parsed env now st m Hnow Hst Hp).
  by rewrite Ht.
Qed.

(** C1.  On a "calendar_invite" record whose time is the ISO text
    "2025-03-15T16:30:00+00:00", which [fromisoformat] parses to a date and
    time with the UTC offset 0, [schedule_task] computes no delay: the
    subtraction of line 133 raises [TypeError], before the delay is forced
    to 0, and neither a line is printed nor a timer started. *)
Theorem schedule_invite_with_offset_raises :
  parse_time sample_env sample_now (JStr "2025-03-15T16:30:00+00:00")
  = Returned (mk_datetime 2025 3 15 16 30 0 0 (Some 0))
  ∧ schedule_task sample_env sample_now (JObj invite_with_offset)
    = ([], Raised TypeError)
  ∧ ¬ armed (JObj invite_with_offset)
        (trace (schedule_task sample_env sample_now (JObj invite_with_offset))).
Proof.
  split; [vm_compute; reflexivity |].
  assert (H : schedule_task sample_env sample_now (JObj invite_with_offset)
              = ([], Raised TypeError)).
  { by apply (schedule_task_aware sample_env sample_now
                (mk_datetime 2025 3 15 16 30 0 0 (Some 0)) invite_with_offset 0). }
  split; [exact H |]. rewrite H. by intros [delay []].
Qed.

(** Without a time, and with "25:99", [parse_time] raises at any valid
    instant. *)
Lemma parse_time_empty (env : Env) (now : datetime) :
  valid_datetime now = true →
  parse_time env now (JStr EmptyString) = Raised ValueError.
Proof.
  intros Hv. unfold parse_time. cbn [char_in].
  apply strptime_today_empty.
  unfold valid_datetime in Hv. rewrite !andb_true_iff in Hv. tauto.
Qed.

Lemma parse_time_25_99 (env : Env) (now : datetime) :
  valid_datetime now = true →
  parse_time env now (JStr "25:99") = Raised ValueError.
Proof.
  intros Hv. unfold parse_time.
  change (char_in "T" "25:99") with false. cbv iota.
  apply strptime_today_25_99.
  unfold valid_datetime in Hv. rewrite !andb_true_iff in Hv. tauto.
Qed.

(** ** The scheduling pass *)

Lemma schedule_all_cons (env : Env) (i : nat) (task : json) (rest : list json) :
  schedule_all env i (task :: rest)
  = (schedule_task env (clock env i) task ;; schedule_all env (S i) rest).
Proof. reflexivity. Qed.

(** When [schedule_task] raises, the pass ends there. *)
Lemma schedule_all_aborts (env : Env) (i : nat) (task : json) (rest : list json)
    (e : exn) :
  result (schedule_task env (clock env i) task) = Raised e →
  schedule_all env i (task :: rest)
  = (trace (schedule_task env (clock env i) task), Raised e).
Proof.
  intros H. rewrite schedule_all_cons.
  destruct (schedule_task env (clock env i) task) as [tr r].
  cbn [result snd] in H. by subst r.
Qed.

(** When it returns, the pass goes on with the rest. *)
Lemma schedule_all_continues (env : Env) (i : nat) (task : json) (rest : list json) :
  result (schedule_task env (clock env i) task) = Returned tt →
  schedule_all env i (task :: rest)
  = ((trace (schedule_task env (clock env i) task)
      ++ trace (schedule_all env (S i) rest))%list,
     result (schedule_all env (S i) rest)).
Proof.
  intros H. rewrite schedule_all_cons.
  destruct (schedule_task env (clock env i) task) as [tr r].
  cbn [result snd] in H. subst r. unfold bind.
  by destruct (schedule_all env (S i) rest).
Qed.

(** A record whose time does not parse is dispatched at once, and the
    pass goes on when the dispatcher returns. *)
Lemma schedule_all_unparsed (env : Env) (i : nat) (m : gmap string json)
    (rest : list json) (e : exn) :
  parse_time env (clock env i) (default (JStr EmptyString) (m !! "time")) = Raised e →
  result (dispatch_task env (JObj m)) = Returned tt →
  schedule_all env i (JObj m :: rest)
  = ((Print (SchedulerErrorParsingTime (default (JStr EmptyString) (m !! "time")) e)
        :: trace (dispatch_task env (JObj m))
        ++ trace (schedule_all env (S i) rest))%list,
     result (schedule_all env (S i) rest)).
Proof.
  intros Hp Hd.
  rewrite schedule_all_continues;
    rewrite (schedule_task_unparsed env (clock env i) m e Hp); [done | exact Hd].
Qed.

(** C2.  With the calendar service failing, the exception of the calendar
    executor leaves [dispatch_task]; for an invite with no time field,
    dispatched from the handler of [schedule_task], it leaves
    [schedule_task] and ends the pass: the reminder that follows is
    neither armed nor dispatched, although it is armed when the service
    answers. *)
Theorem calendar_failure_ends_pass :
  result (dispatch_task calendar_down (JObj invite_without_time))
  = Raised (ServiceError "googleapiclient")
  ∧ result (schedule_all calendar_down 0
              [JObj invite_without_time; JObj reminder_at_17])
    = Raised (ServiceError "googleapiclient")
  ∧ ¬ armed (JObj reminder_at_17)
        (trace (schedule_all calendar_down 0
                  [JObj invite_without_time; JObj reminder_at_17]))
  ∧ ¬ dispatched (JObj reminder_at_17)
        (trace (schedule_all calendar_down 0
                  [JObj invite_without_time; JObj reminder_at_17]))
  ∧ armed (JObj reminder_at_17)
      (trace (schedule_all sample_env 0
                [JObj invite_without_time; JObj reminder_at_17])).
Proof.
  split; [vm_compute; reflexivity |]. split; [vm_compute; reflexivity |].
  split; [| split].
  - intros [delay H]. vm_compute in H.
    destruct H as [H | [H | [H | H]]]; [discriminate.. | destruct H].
  - intros H. vm_compute in H.
    destruct H as [H | [H | [H | H]]]; [discriminate.. | destruct H].
  - exists 26987750000. vm_compute. do 5 right. left. reflexivity.
Qed.

(** C3.  With the quote service failing, a "stock_price" record whose
    time "25:99" does not parse is dispatched at once and no timer is
    started for it, but the exception of the quote lookup leaves the
    dispatcher and [schedule_task], and the pass ends: the reminder that
    follows is neither armed nor dispatched. *)
Theorem unparsed_time_dispatch_failure_ends_pass :
  parse_time quotes_down sample_now (JStr "25:99") = Raised ValueError
  ∧ dispatched (JObj stock_bad_time)
      (trace (schedule_task quotes_down sample_now (JObj stock_bad_time)))
  ∧ ¬ armed (JObj stock_bad_time)
        (trace (schedule_task quotes_down sample_now (JObj stock_bad_time)))
  ∧ result (schedule_all quotes_down 0
              [JObj stock_bad_time; JObj reminder_at_17])
    = Raised (ServiceError "yfinance")
  ∧ ¬ armed (JObj reminder_at_17)
        (trace (schedule_all quotes_down 0
                  [JObj stock_bad_time; JObj reminder_at_17]))
  ∧ ¬ dispatched (JObj reminder_at_17)
        (trace (schedule_all quotes_down 0
                  [JObj stock_bad_time; JObj reminder_at_17])).
Proof.
  split; [vm_compute; reflexivity |].
  split; [vm_compute; right; left; reflexivity |].
  split; [| split; [vm_compute; reflexivity |]; split].
  - intros [delay H]. vm_compute in H.
    destruct H as [H | [H | [H | H]]]; [discriminate.. | destruct H].
  - intros [delay H]. vm_compute in H.
    destruct H as [H | [H | [H | H]]]; [discriminate.. | destruct H].
  - intros H. vm_compute in H.
    destruct H as [H | [H | [H | H]]]; [discriminate.. | destruct H].
Qed.

(** ** modules/gemini_parser.py: parse_tasks *)

(** C8.  When the model answers "42", which is valid JSON and no sequence
    of task records, [parse_tasks] returns the number 42, neither a list
    of records nor an empty list, and prints nothing; [main] then raises
    [TypeError] at the loop of line 179. *)
Lemma parse_tasks_returns_any_json :
  parse_tasks sample_env "Remind me to call John at 17:00"
  = ([], Returned (JInt 42))
  ∧ ¬ is_task_list
        (result (parse_tasks sample_env "Remind me to call John at 17:00"))
  ∧ main sample_env "Remind me to call John at 17:00"
    = ([Print (PrettyTasks (JInt 42))], Raised TypeError).
Proof.
  split; [vm_compute; reflexivity |]. split; [| vm_compute; reflexivity].
  intros (l & H & _). vm_compute in H. discriminate H.
Qed.

(** What [parse_tasks] does when the model answers: it returns the value
    that [json.loads] decodes from the cleaned answer, without a check of
    its shape and without a line printed; when [json.loads] raises
    [JSONDecodeError] it prints two lines, the second with the cleaned
    answer, and returns the empty list; any other exception of the decoder
    leaves [parse_tasks]. *)
Lemma parse_tasks_decodes (env : Env) (task_text out : string) :
  generate_content env (PROMPT_HEADER ++ task_text)%string = Returned out →
  let llm_output := clean_llm_output (strip out) in
  parse_tasks env task_text
  = match json_loads env llm_output with
    | Returned tasks => ([], Returned tasks)
    | Raised JSONDecodeError =>
        ([Print ParserNotValidJson; Print (ParserRawOutput llm_output)],
         Returned (JArr []))
    | Raised e => ([], Raised e)
    end.
Proof.
  intros Hg. cbv zeta. unfold parse_tasks, call_gemini.
  rewrite Hg, bind_lift_Returned, bind_ret.
  destruct (json_loads env (clean_llm_output (strip out))) as [tasks | []];
    reflexivity.
Qed.

Lemma parse_tasks_decodes_witness :
  parse_tasks sample_env "Remind me to call John at 17:00"
  = match json_loads sample_env (clean_llm_output (strip "42")) with
    | Returned tasks => ([], Returned tasks)
    | Raised JSONDecodeError =>
        ([Print ParserNotValidJson;
          Print (ParserRawOutput (clean_llm_output (strip "42")))],
         Returned (JArr []))
    | Raised e => ([], Raised e)
    end.
Proof.
  apply (parse_tasks_decodes sample_env "Remind me to call John at 17:00" "42").
  reflexivity.
Defined.

(** The fences of a Markdown code block are removed from the answer. *)
Lemma clean_llm_output_fenced :
  clean_llm_output ("```json" ++ nl ++ "[]" ++ nl ++ "```") = "[]"
  ∧ clean_llm_output "[]" = "[]".
Proof. split; vm_compute; reflexivity. Qed.

(** * Further properties *)

(** ** modules/calendar_invite.py: get_credentials *)

(** Whenever [get_credentials] returns, [token.pickle] holds the
    credentials it returned. *)
Theorem get_credentials_pickle_consistent (auth : AuthEnv)
    (token_pickle : option credentials) (creds : credentials) :
  auth_result (get_credentials auth token_pickle) = Returned creds →
  pickle_after (get_credentials auth token_pickle) = Some creds.
Proof.
  unfold get_credentials, dump_and_return.
  destruct token_pickle as [c |]; [destruct (valid c) |].
  - cbn. by intros [= ->].
  - destruct (expired c && has_refresh_token c);
      [destruct (refresh auth c) | destruct (run_local_server auth)]; cbn;
      by intros [= ->].
  - destruct (run_local_server auth); cbn; by intros [= ->].
Qed.

Lemma get_credentials_pickle_consistent_witness :
  pickle_after (get_credentials sample_auth (Some stale_credentials))
  = Some fresh_credentials.
Proof.
  apply (get_credentials_pickle_consistent sample_auth (Some stale_credentials)).
  reflexivity.
Defined.

(** When [get_credentials] raises, [token.pickle] is as it was and nothing
    was written to it. *)
Theorem get_credentials_failure_keeps_pickle (auth : AuthEnv)
    (token_pickle : option credentials) (e : exn) :
  auth_result (get_credentials auth token_pickle) = Raised e →
  pickle_after (get_credentials auth token_pickle) = token_pickle
  ∧ ∀ creds, ¬ In (PickleDump creds) (auth_trace (get_credentials auth token_pickle)).
Proof.
  unfold get_credentials, dump_and_return.
  destruct token_pickle as [c |]; [destruct (valid c) |].
  - discriminate.
  - destruct (expired c && has_refresh_token c);
      [destruct (refresh auth c) | destruct (run_local_server auth)]; cbn;
      try discriminate; intros _; (split; [done |]);
      intros creds [H | []]; discriminate H.
  - destruct (run_local_server auth); cbn; try discriminate.
    intros _. split; [done |]. intros creds [H | []]; discriminate H.
Qed.

Lemma get_credentials_failure_keeps_pickle_witness :
  pickle_after (get_credentials auth_down (Some stale_credentials))
  = Some stale_credentials
  ∧ ∀ creds, ¬ In (PickleDump creds)
                 (auth_trace (get_credentials auth_down (Some stale_credentials))).
Proof.
  apply (get_credentials_failure_keeps_pickle auth_down (Some stale_credentials)
           (ServiceError "google.auth")).
  reflexivity.
Defined.

(** The browser flow runs exactly when there are no stored credentials, or
    the stored ones are invalid and cannot be refreshed (not expired, or
    without a refresh token); a refresh and the flow never happen in the
    same run. *)
Theorem get_credentials_flow_iff (auth : AuthEnv) (token_pickle : option credentials) :
  (In FlowCall (auth_trace (get_credentials auth token_pickle))
   ↔ match token_pickle with
     | None => True
     | Some c => valid c = false ∧ (expired c = false ∨ has_refresh_token c = false)
     end)
  ∧ (In FlowCall (auth_trace (get_credentials auth token_pickle)) →
     ∀ c, ¬ In (RefreshCall c) (auth_trace (get_credentials auth token_pickle))).
Proof.
  unfold get_credentials, dump_and_return.
  destruct token_pickle as [c |]; [destruct (valid c) |].
  - cbn. split; [split; [intros [] | intros [? _]; discriminate] | intros []].
  - destruct (expired c) eqn:He, (has_refresh_token c) eqn:Hr; cbn [andb];
      [destruct (refresh auth c) | destruct (run_local_server auth)..]; cbn;
      (split; [split |]); try (intros _; (tauto || (split; [done|]; tauto)));
      try (intros [H | [H | []]]; discriminate H);
      try (intros [H | []]; discriminate H);
      try (intros [_ [H | H]]; discriminate H);
      try (intros _ c' [H | [H | []]]; discriminate H);
      try (intros _ c' [H | []]; discriminate H).
  - destruct (run_local_server auth); cbn; (split; [split |]);
      try tauto; try (intros _ c' [H | [H | []]]; discriminate H);
      try (intros _ c' [H | []]; discriminate H).
Qed.

(** ** The executors *)

(** [send_email] never raises: whatever the SMTP session does, it enters
    the executor once, prints "sent" when the session went through and
    "failed" with the exception otherwise, and returns. *)
Theorem send_email_never_raises (env : Env) (sender password recipient : string)
    (subject message : json) :
  send_email env sender password recipient subject message
  = ([Call (call_send_email sender password recipient subject message);
      Print (match smtp env sender password recipient
                     ("Subject: " ++ fstr env subject ++ nl ++ nl
                      ++ fstr env message)%string with
             | Returned _ => EmailSent recipient
             | Raised e => EmailFailed e
             end)],
     Returned tt).
Proof.
  unfold send_email. rewrite bind_emit.
  by destruct (smtp env sender password recipient _) as [[] | e].
Qed.

(** [get_stock_price] enters the executor once and returns the very price
    that the quote service gives, or "Price not available" when the service
    gives none; it never returns [None], and it raises exactly what the
    service raises. *)
Theorem get_stock_price_result (env : Env) (ticker : json) :
  get_stock_price env ticker
  = ([Call (call_get_stock_price ticker)],
     match regular_market_price env ticker with
     | Returned JNull => Returned (JStr "Price not available")
     | Returned price => Returned price
     | Raised e => Raised e
     end)
  ∧ ∀ price, result (get_stock_price env ticker) = Returned price → price ≠ JNull.
Proof.
  assert (H : get_stock_price env ticker
              = ([Call (call_get_stock_price ticker)],
                 match regular_market_price env ticker with
                 | Returned JNull => Returned (JStr "Price not available")
                 | Returned price => Returned price
                 | Raised e => Raised e
                 end)).
  { unfold get_stock_price. rewrite bind_emit.
    destruct (regular_market_price env ticker) as [price | e]; [| reflexivity].
    rewrite bind_lift_Returned. by destruct price. }
  split; [exact H |]. rewrite H. cbn [result snd].
  destruct (regular_market_price env ticker) as [price | e]; [| discriminate].
  destruct price; intros p [= <-]; discriminate.
Qed.

(** ** Events of a computation *)

Section AllEvents.
Context (P : event → bool).

Lemma all_events_ret {A : Type} (a : A) : all_events P (ret a).
Proof. constructor. Qed.

Lemma all_events_raise {A : Type} (e : exn) : all_events P (raise (A:=A) e).
Proof. constructor. Qed.

Lemma all_events_lift {A : Type} (o : outcome A) : all_events P (lift o).
Proof. constructor. Qed.

Lemma all_events_emit (ev : event) : P ev = true → all_events P (emit ev).
Proof. intros H. by repeat constructor. Qed.

Lemma all_events_bind {A B : Type} (m : M A) (f : A → M B) :
  all_events P m → (∀ a, all_events P (f a)) → all_events P (x <- m ;; f x).
Proof.
  unfold all_events. destruct m as [tr [a | e]]; cbn; intros Hm Hf; [| done].
  specialize (Hf a). destruct (f a) as [tr' r]. cbn in *.
  by apply Forall_app.
Qed.

Lemma all_events_try {A : Type} (catches : exn → bool) (body : M A)
    (handler : exn → M A) :
  all_events P body → (∀ e, all_events P (handler e)) →
  all_events P (try_except catches body handler).
Proof.
  unfold all_events, try_except. destruct body as [tr [a | e]]; cbn; intros Hb Hh;
    [done |].
  destruct (catches e); [| done].
  specialize (Hh e). destruct (handler e) as [tr' r]. cbn in *.
  by apply Forall_app.
Qed.

Lemma all_events_dict_get (d : json) (key : string) (dflt : json) :
  all_events P (dict_get d key dflt).
Proof. destruct d; constructor. Qed.

Lemma all_events_as_str (v : json) : all_events P (as_str v).
Proof. destruct v; constructor. Qed.

Lemma all_events_resolve_email (task : json) : all_events P (resolve_email task).
Proof.
  unfold resolve_email. apply all_events_bind; [apply all_events_dict_get |].
  intros v. apply all_events_bind; [apply all_events_as_str |].
  intros s. destruct (String.eqb _ _); apply all_events_ret.
Qed.
End AllEvents.

Lemma all_events_send_email (env : Env) (P : event → bool)
    (sender password recipient : string) (subject message : json) :
  P (Call (call_send_email sender password recipient subject message)) = true →
  (∀ l, P (Print l) = true) →
  all_events P (send_email env sender password recipient subject message).
Proof.
  intros Hc Hp.
  destruct (send_email_returns env sender password recipient subject message)
    as [l ->].
  repeat constructor; [exact Hc | apply Hp].
Qed.

(** The events of the dispatcher, for any task. *)
Lemma dispatch_task_all_events (env : Env) (task : json) :
  all_events (dispatch_event (default JNull (field task "task_type")))
    (dispatch_task env task).
Proof.
  destruct task as [| | | | | | m]; try constructor.
  unfold dispatch_task. rewrite dict_get_obj, bind_ret. cbn [field].
  set (tt := default JNull (m !! "task_type")).
  apply all_events_bind; [by apply all_events_emit |]. intros _.
  destruct (eq_str tt "email_reminder") eqn:E1.
  { apply all_events_bind; [apply all_events_resolve_email |]. intros email.
    apply all_events_bind; [apply all_events_dict_get |]. intros subject.
    apply all_events_bind; [apply all_events_dict_get |]. intros message.
    apply all_events_send_email; [| done].
    cbn [dispatch_event call_of_type]. by rewrite E1, !String.eqb_refl. }
  destruct (eq_str tt "stock_price") eqn:E2.
  { apply all_events_bind; [apply all_events_dict_get |]. intros ticker.
    apply all_events_bind.
    { unfold get_stock_price.
      apply all_events_bind; [apply all_events_emit; cbn; by rewrite E2 |].
      intros _. apply all_events_bind; [apply all_events_lift |].
      intros price. destruct price; apply all_events_ret. }
    intros price.
    apply all_events_bind; [apply all_events_dict_get |]. intros subject.
    apply all_events_bind; [apply all_events_resolve_email |]. intros email.
    apply all_events_send_email; [| done].
    cbn [dispatch_event call_of_type]. by rewrite E2, orb_true_r, !String.eqb_refl. }
  destruct (eq_str tt "calendar_invite") eqn:E3; [| by apply all_events_emit].
  apply all_events_bind; [apply all_events_dict_get |]. intros event_details.
  destruct (truthy event_details); [| by apply all_events_emit].
  apply all_events_bind; [apply all_events_dict_get |]. intros start_.
  apply all_events_bind.
  { destruct (is_str start_); [| apply all_events_ret].
    repeat (apply all_events_bind; [apply all_events_dict_get |]; intros ?).
    apply all_events_ret. }
  intros payload. unfold create_calendar_invite.
  apply all_events_bind; [apply all_events_emit; cbn; by rewrite E3 |].
  intros _. apply all_events_bind; [apply all_events_lift |].
  intros link. by apply all_events_emit.
Qed.

(** The dispatcher never starts a timer. *)
Lemma dispatch_task_no_timer (env : Env) (task : json) :
  filter is_timer (trace (dispatch_task env task)) = [].
Proof.
  pose proof (dispatch_task_all_events env task) as H. unfold all_events in H.
  induction H as [| ev tr Hev _ IH]; [done |].
  destruct ev; cbn in Hev; try discriminate; exact IH.
Qed.

(** Whatever the task and the services, the dispatcher starts no timer
    and enters only the executors of the task's type: [send_email] for
    "email_reminder", [get_stock_price] and [send_email] for "stock_price",
    [create_calendar_invite] for "calendar_invite", none otherwise; every
    email is sent with the operator's address and password. *)
Theorem dispatch_task_events (env : Env) (task : json) (ev : event) :
  In ev (trace (dispatch_task env task)) →
  let task_type := default JNull (field task "task_type") in
  match ev with
  | Print _ => True
  | Call (call_send_email sender password _ _ _) =>
      (task_type = JStr "email_reminder" ∨ task_type = JStr "stock_price")
      ∧ sender = EMAIL_SENDER ∧ password = EMAIL_PASSWORD
  | Call (call_get_stock_price _) => task_type = JStr "stock_price"
  | Call (call_create_calendar_invite _) => task_type = JStr "calendar_invite"
  | TimerStart _ _ => False
  end.
Proof.
  intros Hin. cbv zeta.
  pose proof (dispatch_task_all_events env task) as H.
  unfold all_events in H. rewrite List.Forall_forall in H.
  specialize (H ev Hin). clear Hin.
  assert (Heq : ∀ v s, eq_str v s = true → v = JStr s).
  { intros v s. destruct v; cbn; try discriminate.
    by intros ->%String.eqb_eq. }
  destruct ev as [l | [sender password r subj msg | t | e] | d t];
    cbn in H; [done | | by apply Heq | by apply Heq | discriminate].
  apply andb_true_iff in H as [H Hp]. apply andb_true_iff in H as [H Hs].
  apply String.eqb_eq in Hp, Hs. apply orb_true_iff in H.
  split; [destruct H as [H | H]; apply Heq in H; tauto | done].
Qed.

Lemma dispatch_task_events_witness :
  (JStr "stock_price" = JStr "email_reminder" ∨ JStr "stock_price" = JStr "stock_price")
  ∧ EMAIL_SENDER = EMAIL_SENDER ∧ EMAIL_PASSWORD = EMAIL_PASSWORD.
Proof.
  apply (dispatch_task_events sample_env (JObj stock_without_subject)
           (Call (call_send_email EMAIL_SENDER EMAIL_PASSWORD EMAIL_SENDER
                    (JStr "Stock Price Update for AAPL")
                    (JStr "The current price for AAPL is 120.5")))).
  vm_compute. right. right. left. reflexivity.
Defined.

(** ** main.py: dispatch_task, the other branches *)

Ltac enter_branch Ht :=
  erewrite dispatch_task_record; [| reflexivity];
  rewrite Ht; cbn [default from_option id];
  repeat match goal with
         | |- context [eq_str (JStr ?a) ?b] =>
             let v := eval vm_compute in (eq_str (JStr a) b) in
             change (eq_str (JStr a) b) with v
         end;
  cbv iota.

(** A "calendar_invite" record with no event, or with an event that
    Python takes as false (null, an empty object, list or string, zero),
    prints that no event details were provided; the calendar executor is
    not entered and the dispatcher returns. *)
Theorem dispatch_calendar_without_event (env : Env) (m : gmap string json) :
  m !! "task_type" = Some (JStr "calendar_invite") →
  truthy (default JNull (m !! "event")) = false →
  dispatch_task env (JObj m)
  = ([Print (DispatchExecuting (JObj m)); Print DispatchNoEventDetails],
     Returned tt).
Proof.
  intros Ht Hev. enter_branch Ht.
  by rewrite dict_get_obj, bind_ret, Hev.
Qed.

Lemma dispatch_calendar_without_event_witness :
  dispatch_task sample_env (JObj invite_without_event)
  = ([Print (DispatchExecuting (JObj invite_without_event));
      Print DispatchNoEventDetails],
     Returned tt).
Proof.
  apply (dispatch_calendar_without_event sample_env invite_without_event);
    reflexivity.
Defined.

(** A "calendar_invite" record whose event is a non-empty string or
    list, a non-zero number or [true] raises [AttributeError] at line 70:
    the calendar executor is not entered. *)
Theorem dispatch_calendar_event_not_dict (env : Env) (m : gmap string json)
    (event_details : json) :
  m !! "task_type" = Some (JStr "calendar_invite") →
  m !! "event" = Some event_details →
  truthy event_details = true →
  (∀ ev, event_details ≠ JObj ev) →
  dispatch_task env (JObj m)
  = ([Print (DispatchExecuting (JObj m))], Raised AttributeError).
Proof.
  intros Ht Hev Htr Hnd. enter_branch Ht.
  rewrite dict_get_obj, bind_ret, Hev. cbn [default from_option id].
  rewrite Htr. destruct event_details; try reflexivity. by destruct (Hnd m0).
Qed.

Lemma dispatch_calendar_event_not_dict_witness :
  dispatch_task sample_env (JObj invite_event_text)
  = ([Print (DispatchExecuting (JObj invite_event_text))], Raised AttributeError).
Proof.
  apply (dispatch_calendar_event_not_dict sample_env invite_event_text
           (JStr "Review tomorrow at 3pm"));
    (reflexivity || discriminate).
Defined.

(** An "email_reminder" record whose email field is there and is not a
    string (null, a number, a list) raises [AttributeError] at line 48: no
    email is sent. *)
Theorem dispatch_email_not_str (env : Env) (m : gmap string json) (email : json) :
  m !! "task_type" = Some (JStr "email_reminder") →
  m !! "email" = Some email →
  is_str email = false →
  dispatch_task env (JObj m)
  = ([Print (DispatchExecuting (JObj m))], Raised AttributeError).
Proof.
  intros Ht He Hs. enter_branch Ht.
  unfold resolve_email. rewrite dict_get_obj, bind_ret, He.
  cbn [default from_option id]. by destruct email.
Qed.

Lemma dispatch_email_not_str_witness :
  dispatch_task sample_env (JObj reminder_null_email)
  = ([Print (DispatchExecuting (JObj reminder_null_email))], Raised AttributeError).
Proof.
  apply (dispatch_email_not_str sample_env reminder_null_email JNull); reflexivity.
Defined.

(** For a "stock_price" record with such an email field the quote is
    looked up first, then line 61 raises: the price is fetched and no
    email is sent. *)
Theorem dispatch_stock_email_not_str (env : Env) (m : gmap string json)
    (email price : json) :
  m !! "task_type" = Some (JStr "stock_price") →
  m !! "email" = Some email →
  is_str email = false →
  let ticker := default (JStr "AAPL") (m !! "stock_symbol") in
  regular_market_price env ticker = Returned price →
  dispatch_task env (JObj m)
  = ([Print (DispatchExecuting (JObj m)); Call (call_get_stock_price ticker)],
     Raised AttributeError).
Proof.
  intros Ht He Hs ticker Hp. enter_branch Ht.
  rewrite dict_get_obj, bind_ret. fold ticker.
  unfold get_stock_price. rewrite bind_assoc, bind_emit, Hp, bind_lift_Returned.
  assert (Hshown : (match price with
                    | JNull => ret (JStr "Price not available")
                    | _ => ret price
                    end) = ret (shown_price price)) by (by destruct price).
  rewrite Hshown, bind_ret, dict_get_obj, bind_ret.
  unfold resolve_email. rewrite dict_get_obj, bind_ret, He.
  cbn [default from_option id]. by destruct email.
Qed.

Lemma dispatch_stock_email_not_str_witness :
  dispatch_task sample_env (JObj stock_null_email)
  = ([Print (DispatchExecuting (JObj stock_null_email));
      Call (call_get_stock_price (JStr "AAPL"))],
     Raised AttributeError).
Proof.
  apply (dispatch_stock_email_not_str sample_env stock_null_email JNull
           (JFloat 120.5));
    reflexivity.
Defined.

(** ** main.py: schedule_task, all cases *)

(** The three ways [schedule_task] ends on a record: the time does not
    parse and the record is dispatched; it parses and a timer is started;
    it parses and the subtraction of line 133 raises. *)
Lemma schedule_task_record (env : Env) (now : datetime) (m : gmap string json) :
  let time := default (JStr EmptyString) (m !! "time") in
  let task_type := default JNull (m !! "task_type") in
  schedule_task env now (JObj m)
  = match parse_time env now time with
    | Raised e =>
        (Print (SchedulerErrorParsingTime time e)
           :: trace (dispatch_task env (JObj m)),
         result (dispatch_task env (JObj m)))
    | Returned st =>
        match datetime_sub st now with
        | Returned d =>
            let delay := if eq_str task_type "calendar_invite" then 0
                         else Z.max 0 d in
            ([Print (SchedulerScheduling task_type delay st);
              TimerStart delay (JObj m)], Returned tt)
        | Raised e => ([], Raised e)
        end
    end.
Proof.
  cbv zeta.
  destruct (parse_time env now (default (JStr EmptyString) (m !! "time")))
    as [st | e] eqn:Hp.
  - unfold schedule_task. rewrite dict_get_obj, bind_ret, Hp.
    unfold try_except. rewrite bind_lift_Returned. cbn [ret]. rewrite bind_ret.
    destruct (datetime_sub st now) as [d | e]; [| reflexivity].
    rewrite bind_lift_Returned, dict_get_obj, bind_ret, bind_emit.
    destruct (eq_str _ _); [reflexivity |].
    destruct (Z.ltb_spec d 0) as [Hd | Hd].
    + by rewrite Z.max_l by lia.
    + by rewrite Z.max_r by lia.
  - by apply schedule_task_unparsed.
Qed.

(** Whatever the task, the clock and the services, [schedule_task] starts
    at most one timer; its delay is not negative and it is bound to the
    task that was given. *)
Theorem schedule_task_timers (env : Env) (now : datetime) (task : json) :
  filter is_timer (trace (schedule_task env now task)) = []
  ∨ ∃ delay, 0 <= delay
      ∧ filter is_timer (trace (schedule_task env now task))
        = [TimerStart delay task].
Proof.
  destruct task as [| | | | | | m]; try (by left).
  rewrite schedule_task_record. cbv zeta.
  destruct (parse_time env now _) as [st | e].
  - destruct (datetime_sub st now) as [d | e]; [| by left].
    right. eexists. split; [| reflexivity].
    destruct (eq_str _ _); lia.
  - left. cbn [trace fst].
    change (filter is_timer (Print ?l :: ?tr)) with (filter is_timer tr).
    apply dispatch_task_no_timer.
Qed.

Lemma dispatch_task_dispatched (env : Env) (m : gmap string json) :
  dispatched (JObj m) (trace (dispatch_task env (JObj m))).
Proof.
  erewrite dispatch_task_record; [| reflexivity]. by left.
Qed.



(** ** Clock times: the delay *)

Lemma to_micro_same_day (a b : datetime) :
  year a = year b → month a = month b → day a = day b →
  to_micro a - to_micro b
  = ((hour a - hour b) * 3600 + (minute a - minute b) * 60
     + (second a - second b)) * 1000000
    + (microsecond a - microsecond b).
Proof.
  intros Hy Hm Hd. unfold to_micro, toordinal. rewrite Hy, Hm, Hd. lia.
Qed.

Lemma schedule_task_hhmm (env : Env) (now : datetime) (m : gmap string json)
    (h mi : Z) :
  valid_datetime now = true →
  utcoffset now = None →
  0 <= h < 24 → 0 <= mi < 60 →
  m !! "time" = Some (JStr (fmt2 h ++ ":" ++ fmt2 mi)) →
  let fire := mk_datetime (year now) (month now) (day now) h mi 0 0 None in
  let task_type := default JNull (m !! "task_type") in
  schedule_task env now (JObj m)
  = ([Print (SchedulerScheduling task_type (timer_delay task_type fire now) fire);
      TimerStart (timer_delay task_type fire now) (JObj m)],
     Returned tt).
Proof.
  intros Hv Hnow Hh Hmi Ht. cbv zeta.
  apply schedule_task_parsed; [done | done |].
  rewrite Ht. cbn [default from_option id]. by apply parse_time_hhmm.
Qed.

(** For a record that is not a calendar invite and whose time is a clock
    time "HH:MM", the timer is started with the time from [now] to HH:MM
    of the same day, in microseconds, and with 0 when that is negative. *)
Theorem schedule_clock_time_delay (env : Env) (now : datetime)
    (m : gmap string json) (h mi : Z) :
  valid_datetime now = true →
  utcoffset now = None →
  0 <= h < 24 → 0 <= mi < 60 →
  m !! "time" = Some (JStr (fmt2 h ++ ":" ++ fmt2 mi)) →
  m !! "task_type" ≠ Some (JStr "calendar_invite") →
  let delay :=
    Z.max 0 (((h - hour now) * 3600 + (mi - minute now) * 60 - second now)
             * 1000000 - microsecond now) in
  filter is_timer (trace (schedule_task env now (JObj m)))
  = [TimerStart delay (JObj m)].
Proof.
  intros Hv Hnow Hh Hmi Ht Hty. cbv zeta.
  rewrite (schedule_task_hhmm env now m h mi Hv Hnow Hh Hmi Ht).
  cbn [trace fst]. unfold timer_delay. rewrite (eq_str_false _ _ Hty).
  rewrite to_micro_same_day by reflexivity. cbn [hour minute second microsecond].
  change (filter is_timer [Print ?l; ?t]) with [t].
  do 2 f_equal; lia.
Qed.

Lemma schedule_clock_time_delay_witness :
  filter is_timer (trace (schedule_task sample_env sample_now (JObj reminder_at_17)))
  = [TimerStart 26987750000 (JObj reminder_at_17)].
Proof.
  apply (schedule_clock_time_delay sample_env sample_now reminder_at_17 17 0);
    (reflexivity || lia || (vm_compute; discriminate)).
Defined.

(** A clock time that is not after the current minute has passed: the
    timer is started with delay 0, for today and not for tomorrow. *)
Theorem schedule_clock_time_passed (env : Env) (now : datetime)
    (m : gmap string json) (h mi : Z) :
  valid_datetime now = true →
  utcoffset now = None →
  0 <= h < 24 → 0 <= mi < 60 →
  m !! "time" = Some (JStr (fmt2 h ++ ":" ++ fmt2 mi)) →
  h * 60 + mi <= hour now * 60 + minute now →
  filter is_timer (trace (schedule_task env now (JObj m)))
  = [TimerStart 0 (JObj m)].
Proof.
  intros Hv Hnow Hh Hmi Ht Hpast.
  rewrite (schedule_task_hhmm env now m h mi Hv Hnow Hh Hmi Ht).
  cbn [trace fst]. change (filter is_timer [Print ?l; ?t]) with [t].
  f_equal. f_equal. unfold timer_delay. destruct (eq_str _ _); [reflexivity |].
  rewrite to_micro_same_day by reflexivity. cbn [hour minute second microsecond].
  unfold valid_datetime in Hv. rewrite !andb_true_iff in Hv.
  rewrite !Z.leb_le, !Z.ltb_lt in Hv. lia.
Qed.

Lemma schedule_clock_time_passed_witness :
  filter is_timer
    (trace (schedule_task sample_env sample_now (JObj stock_without_subject)))
  = [TimerStart 0 (JObj stock_without_subject)].
Proof.
  apply (schedule_clock_time_passed sample_env sample_now stock_without_subject 9 0);
    (reflexivity || lia || (vm_compute; discriminate)).
Defined.

(** ** Clock times out of range *)

Section RegexOutOfRange.
Import Strptime.
Context {R : Type}.
Implicit Types k : Z → string → option R.

Lemma re_H_out_of_range k (h : Z) (rest : string) :
  24 <= h < 100 → stops_at_digit k →
  re_H k (fmt2 h ++ rest)%string = None.
Proof.
  intros H Hk.
  enum_below h 100 (try lia; cbv - [orelse]; rewrite ?Hk by reflexivity; reflexivity).
Qed.

Lemma re_M_out_of_range k (mi : Z) (rest : string) :
  60 <= mi < 100 →
  re_M k (fmt2 mi ++ rest)%string
  = k (mi / 10) (String (digit_char (mi mod 10)) rest).
Proof.
  intros H. enum_below mi 100 (try lia; cbv; reflexivity).
Qed.
End RegexOutOfRange.

Lemma blanks_at_digits {R : Type} (k : string → option R) (h : Z) (rest : string) :
  0 <= h < 100 → Strptime.blanks k (fmt2 h ++ rest)%string = None.
Proof.
  intros Hh. unfold fmt2. norm_append. cbn [Strptime.blanks].
  destruct (digit_char_spec (h / 10 mod 10)) as [Hd _]; [zlia |].
  by rewrite (digit_not_space _ Hd).
Qed.

(** A time of two digits, a colon and two digits parses exactly when the
    hour is below 24 and the minute below 60. *)
Lemma parse_time_two_digits (env : Env) (now : datetime) (h mi : Z) :
  valid_datetime now = true → 0 <= h < 100 → 0 <= mi < 100 →
  parse_time env now (JStr (fmt2 h ++ ":" ++ fmt2 mi))
  = if (h <? 24) && (mi <? 60)
    then Returned (mk_datetime (year now) (month now) (day now) h mi 0 0 None)
    else Raised ValueError.
Proof.
  intros Hv Hh Hmi.
  destruct (Z.ltb_spec h 24) as [Hh' | Hh'];
    [destruct (Z.ltb_spec mi 60) as [Hmi' | Hmi'] |]; cbn [andb].
  - apply parse_time_hhmm; (done || lia).
  - assert (Hd : valid_date (year now) (month now) (day now) = true).
    { unfold valid_datetime in Hv. rewrite !andb_true_iff in Hv. tauto. }
    destruct (valid_date_bounds _ _ _ Hd) as (Hy & Hm & Hdd).
    unfold parse_time. rewrite !char_in_app, !fmt2_no_T by lia.
    change (char_in "T" ":") with false. cbn [orb].
    unfold Strptime.strptime. change (date_of now) with
      (mk_date (year now) (month now) (day now)).
    rewrite format_regex_str_date by lia.
    unfold Strptime.time_of_day. cbn [Strptime.blanks].
    change (is_space " ") with true. cbv iota.
    rewrite blanks_at_digits by lia. cbn [Strptime.orelse].
    rewrite re_H_fmt2; [| lia | by apply lit_stops].
    norm_append. rewrite lit_same.
    replace (fmt2 mi) with (fmt2 mi ++ EmptyString)%string
      by (unfold fmt2; by norm_append).
    rewrite re_M_out_of_range by lia. reflexivity.
  - assert (Hd : valid_date (year now) (month now) (day now) = true).
    { unfold valid_datetime in Hv. rewrite !andb_true_iff in Hv. tauto. }
    destruct (valid_date_bounds _ _ _ Hd) as (Hy & Hm & Hdd).
    unfold parse_time. rewrite !char_in_app, !fmt2_no_T by lia.
    change (char_in "T" ":") with false. cbn [orb].
    unfold Strptime.strptime. change (date_of now) with
      (mk_date (year now) (month now) (day now)).
    rewrite format_regex_str_date by lia.
    unfold Strptime.time_of_day. cbn [Strptime.blanks].
    change (is_space " ") with true. cbv iota.
    rewrite blanks_at_digits by lia. cbn [Strptime.orelse].
    rewrite re_H_out_of_range; [done | lia | by apply lit_stops].
Qed.

(** For a time of two digits, a colon and two digits, a timer is started
    exactly when the hour is below 24 and the minute below 60; any other
    such time (as "24:00" or "12:60") is reported as an error and the
    record is dispatched at once, with no timer. *)
Theorem schedule_two_digit_time (env : Env) (now : datetime)
    (m : gmap string json) (h mi : Z) :
  valid_datetime now = true →
  utcoffset now = None →
  0 <= h < 100 → 0 <= mi < 100 →
  m !! "time" = Some (JStr (fmt2 h ++ ":" ++ fmt2 mi)) →
  if (h <? 24) && (mi <? 60)
  then armed (JObj m) (trace (schedule_task env now (JObj m)))
       ∧ ¬ dispatched (JObj m) (trace (schedule_task env now (JObj m)))
  else schedule_task env now (JObj m)
       = (Print (SchedulerErrorParsingTime (JStr (fmt2 h ++ ":" ++ fmt2 mi)) ValueError)
            :: trace (dispatch_task env (JObj m)),
          result (dispatch_task env (JObj m)))
       ∧ dispatched (JObj m) (trace (schedule_task env now (JObj m)))
       ∧ filter is_timer (trace (schedule_task env now (JObj m))) = [].
Proof.
  intros Hv Hnow Hh Hmi Ht.
  pose proof (parse_time_two_digits env now h mi Hv Hh Hmi) as Hp.
  destruct ((h <? 24) && (mi <? 60)).
  - rewrite (schedule_task_parsed env now
               (mk_datetime (year now) (month now) (day now) h mi 0 0 None)
               m Hnow eq_refl);
      [| by rewrite Ht].
    split; [eexists; right; left; reflexivity |].
    intros [H | [H | []]]; discriminate H.
  - assert (Hs : schedule_task env now (JObj m)
                 = (Print (SchedulerErrorParsingTime
                             (JStr (fmt2 h ++ ":" ++ fmt2 mi)) ValueError)
                      :: trace (dispatch_task env (JObj m)),
                    result (dispatch_task env (JObj m)))).
    { rewrite (schedule_task_unparsed env now m ValueError); by rewrite Ht. }
    split; [exact Hs |]. rewrite Hs. cbn [trace fst]. split.
    + right. apply dispatch_task_dispatched.
    + change (filter is_timer (Print ?l :: ?tr)) with (filter is_timer tr).
      apply dispatch_task_no_timer.
Qed.

Lemma schedule_two_digit_time_witness :
  schedule_task sample_env sample_now (JObj reminder_bad_time)
  = (Print (SchedulerErrorParsingTime (JStr "25:99") ValueError)
       :: trace (dispatch_task sample_env (JObj reminder_bad_time)),
     result (dispatch_task sample_env (JObj reminder_bad_time)))
  ∧ dispatched (JObj reminder_bad_time)
      (trace (schedule_task sample_env sample_now (JObj reminder_bad_time)))
  ∧ filter is_timer
      (trace (schedule_task sample_env sample_now (JObj reminder_bad_time))) = [].
Proof.
  apply (schedule_two_digit_time sample_env sample_now reminder_bad_time 25 99);
    (reflexivity || lia).
Defined.

(** ** The scheduling pass, in general *)

Lemma schedule_all_app (env : Env) (i : nat) (l1 l2 : list json) :
  schedule_all env i (l1 ++ l2)
  = (schedule_all env i l1 ;; schedule_all env (i + length l1) l2).
Proof.
  revert i. induction l1 as [| t l1 IH]; intros i.
  - cbn [app length schedule_all]. rewrite bind_ret. by rewrite Nat.add_0_r.
  - cbn [app length]. rewrite !schedule_all_cons, bind_assoc, IH.
    by rewrite Nat.add_succ_r.
Qed.

(** The pass ends at the first task whose scheduling raises: the events
    are those of the tasks up to it, the pass raises the same exception,
    and the tasks after it, whatever they are, add nothing. *)
Theorem schedule_all_stops_at_failure (env : Env) (i : nat)
    (before : list json) (task : json) (after : list json) (e : exn) :
  result (schedule_all env i before) = Returned tt →
  result (schedule_task env (clock env (i + length before)) task) = Raised e →
  schedule_all env i (before ++ task :: after)
  = ((trace (schedule_all env i before)
      ++ trace (schedule_task env (clock env (i + length before)) task))%list,
     Raised e).
Proof.
  intros Hb Ht. rewrite schedule_all_app, schedule_all_cons.
  destruct (schedule_all env i before) as [tr1 r1]. cbn [result snd] in Hb.
  subst r1.
  destruct (schedule_task env (clock env (i + length before)) task) as [tr2 r2].
  cbn [result snd] in Ht. subst r2. reflexivity.
Qed.

Lemma schedule_all_stops_at_failure_witness :
  schedule_all calendar_down 0
    ([] ++ JObj invite_without_time :: [JObj reminder_at_17])
  = ((trace (schedule_all calendar_down 0 [])
      ++ trace (schedule_task calendar_down (clock calendar_down (0 + length (@nil json)))
                  (JObj invite_without_time)))%list,
     Raised (ServiceError "googleapiclient")).
Proof.
  apply (schedule_all_stops_at_failure calendar_down 0 [] (JObj invite_without_time)
           [JObj reminder_at_17] (ServiceError "googleapiclient"));
    vm_compute; reflexivity.
Defined.

Lemma dispatch_plain_reminder_returns (env : Env) (m : gmap string json) :
  plain_reminder m → result (dispatch_task env (JObj m)) = Returned tt.
Proof.
  intros (Ht & (email & He & _) & _).
  erewrite dispatch_task_record; [| reflexivity].
  rewrite Ht. cbn [default from_option id].
  change (eq_str (JStr "email_reminder") "email_reminder") with true. cbv iota.
  rewrite (resolve_email_contract m email He), bind_ret.
  rewrite !dict_get_obj, !bind_ret.
  by rewrite send_email_operator.
Qed.

Lemma schedule_plain_reminder (env : Env) (now : datetime) (m : gmap string json) :
  valid_datetime now = true → utcoffset now = None → plain_reminder m →
  result (schedule_task env now (JObj m)) = Returned tt
  ∧ (armed (JObj m) (trace (schedule_task env now (JObj m)))
     ∨ dispatched (JObj m) (trace (schedule_task env now (JObj m)))).
Proof.
  intros Hv Hnow Hm. pose proof Hm as (_ & _ & s & Hs & HT & _).
  rewrite schedule_task_record. cbv zeta. rewrite Hs.
  destruct (parse_time env now (JStr s)) as [st | e] eqn:Hp.
  - destruct (parse_time_clock_today env now st s Hv HT Hp) as [_ Hst].
    unfold datetime_sub. rewrite Hst, Hnow.
    split; [reflexivity |]. left. eexists. right. left. reflexivity.
  - cbn [result snd trace fst]. split.
    + by apply dispatch_plain_reminder_returns.
    + right. right. apply dispatch_task_dispatched.
Qed.

(** A pass over reminders whose email is missing or a string of ASCII
    characters and whose time is missing or a string of ASCII characters
    without "T" never raises, whether or not the time texts parse and
    whether or not the emails go through: it returns, and every reminder
    has been armed or dispatched. *)
Theorem schedule_all_plain_reminders (env : Env) (i : nat) (tasks : list json) :
  (∀ j, valid_datetime (clock env j) = true ∧ utcoffset (clock env j) = None) →
  Forall (λ t, ∃ m, t = JObj m ∧ plain_reminder m) tasks →
  result (schedule_all env i tasks) = Returned tt
  ∧ Forall (λ t, armed t (trace (schedule_all env i tasks))
                 ∨ dispatched t (trace (schedule_all env i tasks))) tasks.
Proof.
  intros Hclock Htasks. revert i.
  induction Htasks as [| t tasks (m & -> & Hm) _ IH]; intros i.
  - split; [reflexivity | constructor].
  - destruct (Hclock i) as [Hv Hnow].
    destruct (schedule_plain_reminder env (clock env i) m Hv Hnow Hm) as [Hr Ha].
    destruct (IH (S i)) as [Hr' Ha'].
    rewrite (schedule_all_continues env i (JObj m) tasks Hr).
    cbn [result snd trace fst]. split; [exact Hr' |].
    constructor.
    + unfold armed, dispatched in *.
      destruct Ha as [[d Hd] | Hd]; [left; exists d | right];
        apply in_or_app; by left.
    + eapply Forall_impl; [exact Ha' |]. cbn. unfold armed, dispatched.
      intros t [[d Hd] | Hd]; [left; exists d | right];
        apply in_or_app; by right.
Qed.

Lemma schedule_all_plain_reminders_witness :
  result (schedule_all sample_env 0 [JObj reminder_at_17; JObj reminder_bad_time])
  = Returned tt
  ∧ Forall (λ t, armed t (trace (schedule_all sample_env 0
                                    [JObj reminder_at_17; JObj reminder_bad_time]))
                 ∨ dispatched t (trace (schedule_all sample_env 0
                                          [JObj reminder_at_17; JObj reminder_bad_time])))
      [JObj reminder_at_17; JObj reminder_bad_time].
Proof.
  apply (schedule_all_plain_reminders sample_env 0
           [JObj reminder_at_17; JObj reminder_bad_time]).
  - intros j. split; reflexivity.
  - repeat constructor.
    + exists reminder_at_17. split; [reflexivity |].
      split; [reflexivity |]. split.
      * exists (Some "UNKNOWN"). split; reflexivity.
      * exists "17:00". repeat split.
    + exists reminder_bad_time. split; [reflexivity |].
      split; [reflexivity |]. split.
      * exists None. split; reflexivity.
      * exists "25:99". repeat split.
Defined.

(** ** main.py: main *)

Lemma parse_tasks_cases (env : Env) (task_text out : string) :
  generate_content env (PROMPT_HEADER ++ task_text)%string = Returned out →
  parse_tasks env task_text
  = match json_loads env (clean_llm_output (strip out)) with
    | Returned tasks => ([], Returned tasks)
    | Raised JSONDecodeError =>
        ([Print ParserNotValidJson;
          Print (ParserRawOutput (clean_llm_output (strip out)))],
         Returned (JArr []))
    | Raised e => ([], Raised e)
    end.
Proof.
  intros Hg. unfold parse_tasks, call_gemini.
  rewrite Hg, bind_lift_Returned, bind_ret.
  destruct (json_loads env (clean_llm_output (strip out))) as [tasks | []];
    reflexivity.
Qed.

(** When the answer of the model is not valid JSON, [main] prints the
    error and the raw answer, schedules nothing, and reaches the idle
    loop. *)
Theorem main_invalid_json (env : Env) (tasks_text out : string) :
  generate_content env (PROMPT_HEADER ++ tasks_text)%string = Returned out →
  json_loads env (clean_llm_output (strip out)) = Raised JSONDecodeError →
  main env tasks_text
  = ([Print ParserNotValidJson;
      Print (ParserRawOutput (clean_llm_output (strip out)));
      Print (PrettyTasks (JArr []));
      Print MainRunning],
     Returned tt).
Proof.
  intros Hg Hj. unfold main.
  rewrite (parse_tasks_cases env tasks_text out Hg), Hj.
  reflexivity.
Qed.

Lemma main_invalid_json_witness :
  main chatty_env "Remind me to call John at 17:00"
  = ([Print ParserNotValidJson;
      Print (ParserRawOutput (clean_llm_output (strip "Sure, here are your tasks")));
      Print (PrettyTasks (JArr []));
      Print MainRunning],
     Returned tt).
Proof.
  apply (main_invalid_json chatty_env "Remind me to call John at 17:00"
           "Sure, here are your tasks");
    reflexivity.
Defined.

(** A failure of the model call is not caught: [parse_tasks] and [main]
    raise it, with nothing printed and nothing scheduled. *)
Theorem main_model_call_fails (env : Env) (tasks_text : string) (e : exn) :
  generate_content env (PROMPT_HEADER ++ tasks_text)%string = Raised e →
  parse_tasks env tasks_text = ([], Raised e)
  ∧ main env tasks_text = ([], Raised e).
Proof.
  intros Hg.
  assert (Hp : parse_tasks env tasks_text = ([], Raised e)).
  { unfold parse_tasks, call_gemini. by rewrite Hg. }
  split; [exact Hp |]. unfold main. by rewrite Hp.
Qed.

Lemma main_model_call_fails_witness :
  parse_tasks model_down "Remind me to call John at 17:00"
  = ([], Raised (ServiceError "google.genai"))
  ∧ main model_down "Remind me to call John at 17:00"
    = ([], Raised (ServiceError "google.genai")).
Proof.
  apply (main_model_call_fails model_down "Remind me to call John at 17:00"
           (ServiceError "google.genai")).
  reflexivity.
Defined.

Lemma schedule_task_not_record (env : Env) (now : datetime) (task : json) :
  (∀ m, task ≠ JObj m) → schedule_task env now task = ([], Raised AttributeError).
Proof.
  intros H. destruct task; try reflexivity. by destruct (H m).
Qed.

(** What [main] does with a decoded answer that is not a list of
    records: null, a boolean or a number cannot be iterated and the loop
    raises [TypeError]; a list whose first item is not a record, a
    non-empty string and a non-empty object make [schedule_task] raise
    [AttributeError] on the first item; in each case nothing is scheduled.
    The empty list goes on to the idle loop. *)
Theorem main_decoded_not_records (env : Env) (tasks_text out : string) (v : json) :
  generate_content env (PROMPT_HEADER ++ tasks_text)%string = Returned out →
  json_loads env (clean_llm_output (strip out)) = Returned v →
  match v with
  | JNull | JBool _ | JInt _ | JFloat _ =>
      main env tasks_text = ([Print (PrettyTasks v)], Raised TypeError)
  | JStr s =>
      s ≠ EmptyString →
      main env tasks_text = ([Print (PrettyTasks v)], Raised AttributeError)
  | JObj m =>
      m ≠ ∅ →
      main env tasks_text = ([Print (PrettyTasks v)], Raised AttributeError)
  | JArr [] =>
      main env tasks_text
      = ([Print (PrettyTasks v); Print MainRunning], Returned tt)
  | JArr (t :: _) =>
      (∀ m, t ≠ JObj m) →
      main env tasks_text = ([Print (PrettyTasks v)], Raised AttributeError)
  end.
Proof.
  intros Hg Hj.
  assert (Hmain : main env tasks_text
                  = (Print (PrettyTasks v)
                       :: trace (tasks <- iterate v ;;
                                 schedule_all env 0 tasks ;;
                                 emit (Print MainRunning)),
                     result (tasks <- iterate v ;;
                             schedule_all env 0 tasks ;;
                             emit (Print MainRunning)))).
  { unfold main. rewrite (parse_tasks_cases env tasks_text out Hg), Hj.
    change (@pair (list event) (outcome json) [] (Returned v)) with (ret v).
    rewrite bind_ret. unfold pretty_print_tasks. by rewrite bind_emit. }
  rewrite Hmain. clear Hmain.
  assert (Hfirst : ∀ t rest, (∀ m, t ≠ JObj m) →
            (tasks <- ret (t :: rest) ;;
             schedule_all env 0 tasks ;; emit (Print MainRunning))
            = ([], Raised AttributeError)).
  { intros t rest Ht. rewrite bind_ret, schedule_all_cons.
    by rewrite (schedule_task_not_record env _ t Ht). }
  destruct v as [| b | z | f | s | l | m]; try reflexivity.
  - intros Hs. destruct s as [| c s]; [done |].
    cbn [iterate list_ascii_of_string fmap list_fmap].
    by rewrite Hfirst.
  - destruct l as [| t l]; [reflexivity |].
    intros Ht. cbn [iterate]. by rewrite Hfirst.
  - intros Hm. cbn [iterate].
    destruct (map_to_list m) as [| [k x] l] eqn:Hl.
    + by apply map_to_list_empty_iff in Hl.
    + cbn [fmap list_fmap fst]. by rewrite Hfirst.
Qed.

Lemma main_decoded_not_records_witness :
  main sample_env "Remind me to call John at 17:00"
  = ([Print (PrettyTasks (JInt 42))], Raised TypeError).
Proof.
  apply (main_decoded_not_records sample_env "Remind me to call John at 17:00"
           "42" (JInt 42));
    reflexivity.
Defined.

(** ** modules/gemini_parser.py: clean_llm_output *)

Lemma length_append (a b : string) :
  String.length (a ++ b) = (String.length a + String.length b)%nat.
Proof. induction a as [| c a IH]; [reflexivity |]. rewrite append_String. cbn. by rewrite IH. Qed.

Lemma drop_str_append (a b : string) : drop_str (String.length a) (a ++ b) = b.
Proof. induction a as [| c a IH]; [by destruct b |]. by rewrite append_String. Qed.

Lemma substring_append (a b : string) :
  String.substring 0 (String.length a) (a ++ b) = a.
Proof.
  induction a as [| c a IH]; [by destruct b |].
  rewrite append_String. cbn. by rewrite IH.
Qed.

Lemma startswith_append (p s : string) : startswith p (p ++ s) = true.
Proof. unfold startswith. apply String.prefix_correct, substring_append. Qed.

Lemma endswith_append (s p : string) : endswith p (s ++ p) = true.
Proof.
  unfold endswith. rewrite length_append.
  replace (String.length s + String.length p - String.length p)%nat
    with (String.length s) by lia.
  rewrite drop_str_append, String.eqb_refl. cbn [andb].
  apply Nat.leb_le. lia.
Qed.

Lemma drop_last_append (s p : string) :
  drop_last (String.length p) (s ++ p) = s.
Proof.
  unfold drop_last. rewrite length_append.
  replace (String.length s + String.length p - String.length p)%nat
    with (String.length s) by lia.
  apply substring_append.
Qed.

Lemma lstrip_blanks (w s : string) : all_space w = true → lstrip (w ++ s) = lstrip s.
Proof.
  induction w as [| c w IH]; [done |]. cbn [all_space].
  intros [Hc Hw]%andb_true_iff. rewrite append_String. cbn [lstrip].
  rewrite Hc. by apply IH.
Qed.

Lemma rstrip_blanks (s w : string) : all_space w = true → rstrip (s ++ w) = rstrip s.
Proof.
  intros Hw. induction s as [| c s IH].
  - rewrite append_Empty. induction w as [| c w IH]; [done |].
    cbn [all_space] in Hw. apply andb_true_iff in Hw as [Hc Hw].
    cbn [rstrip]. by rewrite (IH Hw), Hc.
  - rewrite append_String. cbn [rstrip]. by rewrite IH.
Qed.

Lemma rstrip_append (s t : string) :
  rstrip t ≠ EmptyString → rstrip (s ++ t) = (s ++ rstrip t)%string.
Proof.
  intros Ht. induction s as [| c s IH]; [done |].
  rewrite !append_String. cbn [rstrip]. rewrite IH.
  destruct (s ++ rstrip t)%string eqn:E; [| done].
  destruct s; [by rewrite append_Empty in E | by rewrite append_String in E].
Qed.

Lemma length_rstrip (s : string) : (String.length (rstrip s) <= String.length s)%nat.
Proof.
  induction s as [| c s IH]; [done |]. cbn [rstrip].
  destruct (rstrip s); [destruct (is_space c) |]; cbn in *; lia.
Qed.

Lemma lstrip_fixed_or_shorter (s : string) :
  lstrip s = s ∨ (String.length (lstrip s) < String.length s)%nat.
Proof.
  induction s as [| c s IH]; [by left |]. cbn [lstrip].
  destruct (is_space c); [| by left]. right. cbn. destruct IH as [-> | ?]; lia.
Qed.

(** A string that [strip] leaves as it is has no blank at either end. *)
Lemma strip_fixed (s : string) : strip s = s → lstrip s = s ∧ rstrip s = s.
Proof.
  unfold strip. intros H.
  destruct (lstrip_fixed_or_shorter s) as [Hl | Hl].
  - split; [done |]. by rewrite Hl in H.
  - pose proof (length_rstrip (lstrip s)) as Hr. rewrite H in Hr. lia.
Qed.

(** Removing the fence around a body without blanks at its ends. *)
Lemma clean_llm_output_fenced_core (w1 body w2 : string) :
  all_space w1 = true → all_space w2 = true → strip body = body →
  clean_llm_output ("```json" ++ w1 ++ body ++ w2 ++ "```") = body.
Proof.
  intros H1 H2 [Hl Hr]%strip_fixed. unfold clean_llm_output.
  rewrite startswith_append. rewrite drop_str_append.
  destruct body as [| c body].
  - assert (Hs : strip (w1 ++ EmptyString ++ w2 ++ "```") = "```").
    { unfold strip. rewrite lstrip_blanks, append_Empty, lstrip_blanks by done.
      reflexivity. }
    rewrite Hs. reflexivity.
  - assert (Hc : is_space c = false).
    { cbn [lstrip] in Hl. destruct (is_space c); [| done].
      pose proof (f_equal String.length Hl) as Hlen. cbn in Hlen.
      destruct (lstrip_fixed_or_shorter body) as [E | E];
        [rewrite E in Hlen |]; lia. }
    assert (Hls : ∀ t, lstrip (String c body ++ t) = (String c body ++ t)%string).
    { intros t. rewrite append_String. cbn [lstrip]. by rewrite Hc. }
    assert (Hs : strip (w1 ++ String c body ++ w2 ++ "```")
                 = ((String c body ++ w2) ++ "```")%string).
    { unfold strip. rewrite lstrip_blanks, Hls by done.
      rewrite <- append_assoc. by rewrite (rstrip_append _ "```"). }
    rewrite Hs, endswith_append.
    rewrite (drop_last_append _ "```").
    unfold strip. rewrite Hls. by rewrite rstrip_blanks.
Qed.

(** An answer wrapped in a Markdown fence, "```json", the body, "```",
    with any ASCII blanks around the body, is cleaned to the body itself,
    provided the body is ASCII text with no blank at its ends; and a body
    that carries no fence of its own is left as it is when cleaned
    again. *)
Theorem clean_llm_output_fenced_body (w1 body w2 : string) :
  all_space w1 = true → all_space w2 = true →
  is_ascii body = true → strip body = body →
  clean_llm_output ("```json" ++ w1 ++ body ++ w2 ++ "```") = body
  ∧ (startswith "```json" body = false → endswith "```" body = false →
     clean_llm_output body = body).
Proof.
  intros H1 H2 _ Hb. split.
  - by apply clean_llm_output_fenced_core.
  - intros Hs He. unfold clean_llm_output. by rewrite Hs, He.
Qed.

Lemma clean_llm_output_fenced_body_witness :
  clean_llm_output ("```json" ++ nl ++ "[]" ++ nl ++ "```") = "[]"
  ∧ (startswith "```json" "[]" = false → endswith "```" "[]" = false →
     clean_llm_output "[]" = "[]").
Proof.
  apply (clean_llm_output_fenced_body nl "[]" nl); reflexivity.
Defined.

(** When the model answers with a fenced body of ASCII text, ASCII blanks
    around the fence or not, [parse_tasks] gives the body itself to
    [json.loads]: it returns what the body decodes to, and the empty list
    when the body is not valid JSON. *)
Theorem parse_tasks_fenced_answer (env : Env) (task_text w0 w1 body w2 w3 : string) :
  all_space w0 = true → all_space w1 = true → all_space w2 = true →
  all_space w3 = true → is_ascii body = true → strip body = body →
  generate_content env (PROMPT_HEADER ++ task_text)%string
  = Returned (w0 ++ ("```json" ++ w1 ++ body ++ w2 ++ "```") ++ w3)%string →
  parse_tasks env task_text
  = match json_loads env body with
    | Returned tasks => ([], Returned tasks)
    | Raised JSONDecodeError =>
        ([Print ParserNotValidJson; Print (ParserRawOutput body)],
         Returned (JArr []))
    | Raised e => ([], Raised e)
    end.
Proof.
  intros H0 H1 H2 H3 _ Hb Hg.
  unfold parse_tasks, call_gemini. rewrite Hg, bind_lift_Returned, bind_ret.
  assert (Hs : strip (w0 ++ ("```json" ++ w1 ++ body ++ w2 ++ "```") ++ w3)
               = ("```json" ++ w1 ++ body ++ w2 ++ "```")%string).
  { unfold strip. rewrite lstrip_blanks by done.
    assert (Hl : ∀ t, lstrip ("```json" ++ t) = ("```json" ++ t)%string)
      by reflexivity.
    rewrite append_assoc, Hl, <- append_assoc, rstrip_blanks by done.
    rewrite <- !append_assoc. by rewrite (rstrip_append _ "```"). }
  rewrite Hs, (clean_llm_output_fenced_core w1 body w2 H1 H2 Hb).
  destruct (json_loads env body) as [tasks | []]; reflexivity.
Qed.

Lemma parse_tasks_fenced_answer_witness :
  parse_tasks fenced_env "Remind me to call John at 17:00"
  = match json_loads fenced_env "[]" with
    | Returned tasks => ([], Returned tasks)
    | Raised JSONDecodeError =>
        ([Print ParserNotValidJson; Print (ParserRawOutput "[]")],
         Returned (JArr []))
    | Raised e => ([], Raised e)
    end.
Proof.
  apply (parse_tasks_fenced_answer fenced_env "Remind me to call John at 17:00"
           EmptyString nl "[]" nl EmptyString);
    reflexivity.
Defined.

(** ** Clock texts in general *)

(** Any time without "T" that the format accepts (as "9:05" or "17:0")
    arms a timer for an instant of the day of [now], at a whole minute. *)
Theorem schedule_clock_text_today (env : Env) (now st : datetime)
    (m : gmap string json) (s : string) :
  valid_datetime now = true →
  utcoffset now = None →
  m !! "time" = Some (JStr s) →
  char_in "T" s = false →
  parse_time env now (JStr s) = Returned st →
  let task_type := default JNull (m !! "task_type") in
  schedule_task env now (JObj m)
  = ([Print (SchedulerScheduling task_type (timer_delay task_type st now) st);
      TimerStart (timer_delay task_type st now) (JObj m)],
     Returned tt)
  ∧ date_of st = date_of now ∧ second st = 0 ∧ microsecond st = 0.
Proof.
  intros Hv Hnow Ht HT Hp. cbv zeta.
  assert (Hd : valid_date (year now) (month now) (day now) = true).
  { unfold valid_datetime in Hv. rewrite !andb_true_iff in Hv. tauto. }
  pose proof Hp as Hp'. unfold parse_time in Hp'. rewrite HT in Hp'.
  apply (strptime_date_is_today _ _ _ _ _ Hd) in Hp' as (Hdate & Hsec & Hmicro & Hoff).
  split; [| done].
  apply schedule_task_parsed; [done | done |]. by rewrite Ht.
Qed.

Lemma schedule_clock_text_today_witness :
  schedule_task sample_env sample_now (JObj reminder_at_17)
  = ([Print (SchedulerScheduling (JStr "email_reminder") 26987750000
               (mk_datetime 2025 3 15 17 0 0 0 None));
      TimerStart 26987750000 (JObj reminder_at_17)],
     Returned tt)
  ∧ date_of (mk_datetime 2025 3 15 17 0 0 0 None) = date_of sample_now
  ∧ second (mk_datetime 2025 3 15 17 0 0 0 None) = 0
  ∧ microsecond (mk_datetime 2025 3 15 17 0 0 0 None) = 0.
Proof.
  apply (schedule_clock_text_today sample_env sample_now
           (mk_datetime 2025 3 15 17 0 0 0 None) reminder_at_17 "17:00");
    reflexivity.
Defined.

Lemma schedule_calendar_invite_naive_witness :
  schedule_task sample_env sample_now (JObj invite_structured)
  = ([Print (SchedulerScheduling (JStr "calendar_invite") 0
               (mk_datetime 2025 3 15 16 30 0 0 None));
      TimerStart 0 (JObj invite_structured)],
     Returned tt).
Proof.
  apply (schedule_calendar_invite_naive sample_env sample_now
           (mk_datetime 2025 3 15 16 30 0 0 None) invite_structured);
    reflexivity.
Defined.
